(** * Bittbridge miner_model: discovery and loading of student models

A shallow embedding of

- [miner_model/utils/model_loader.py]
  ([load_student_model], [list_available_models]) and
- [miner_model/student_models/my_model.py]
  (the module-level [.h5] / [.csv] searches and [predict]),

together with the properties of the discovery-and-load engine. *)

From Stdlib Require Import String Ascii List Bool Arith Lia QArith Lqa.
From stdpp Require Import base decidable option list strings gmap.

Set Warnings "-register-all".

Local Open Scope string_scope.
Local Open Scope list_scope.

(** ** Python string primitives used by the sources *)

Module Py.

(** [s.startswith(p)] *)
Definition startswith (s p : string) : bool := String.prefix p s.

(** [s.endswith(suf)]: some tail of [s] is [suf]. *)
Fixpoint endswith (s suf : string) : bool :=
  String.eqb s suf ||
  match s with
  | EmptyString => false
  | String _ s' => endswith s' suf
  end.

(** [needle in hay] on strings: [needle] is a prefix of some tail. *)
Fixpoint contains (needle hay : string) : bool :=
  String.prefix needle hay ||
  match hay with
  | EmptyString => false
  | String _ hay' => contains needle hay'
  end.

(** [s[:-3]] *)
Definition drop_last3 (s : string) : string :=
  String.substring 0 (String.length s - 3) s.

(** [x in l] for a list of strings. *)
Definition mem (x : string) (l : list string) : bool :=
  bool_decide (x ∈ l).

End Py.

(** ** [os.path] on POSIX *)

Module posixpath.

Definition sep : ascii := "/"%char.

Definition is_sep (c : ascii) : bool := Ascii.eqb c sep.

Fixpoint has_sep (s : string) : bool :=
  match s with
  | EmptyString => false
  | String c s' => is_sep c || has_sep s'
  end.

Fixpoint all_sep (s : string) : bool :=
  match s with
  | EmptyString => true
  | String c s' => is_sep c && all_sep s'
  end.

(** [os.path.join(a, b)] *)
Definition join (a b : string) : string :=
  if Py.startswith b "/" then b
  else if String.eqb a "" || Py.endswith a "/" then a +:+ b
  else a +:+ "/" +:+ b.

(** [p[:p.rfind('/') + 1]] *)
Fixpoint head_part (p : string) : string :=
  match p with
  | EmptyString => EmptyString
  | String c p' =>
      if has_sep p' then String c (head_part p')
      else if is_sep c then String c EmptyString
      else EmptyString
  end.

(** [s.rstrip('/')] *)
Fixpoint rstrip_sep (s : string) : string :=
  match s with
  | EmptyString => EmptyString
  | String c s' =>
      let r := rstrip_sep s' in
      if is_sep c && String.eqb r "" then EmptyString else String c r
  end.

(** [os.path.dirname(p)] *)
Definition dirname (p : string) : string :=
  let head := head_part p in
  if negb (String.eqb head "") && negb (all_sep head)
  then rstrip_sep head
  else head.

End posixpath.

(** ** Directory trees

A directory holds its entries in the order in which the operating system
enumerates them; [os.listdir] and [os.walk] both read that order.
[Locked] is a directory whose entries the process may not read. *)

Inductive node : Type :=
| File : node
| Dir : list (string * node) -> node
| Locked : node.

Definition entries := list (string * node).

Definition is_dir (n : node) : bool :=
  match n with Dir _ | Locked => true | File => false end.

Definition lookup_entry (name : string) (es : entries) : option node :=
  snd <$> List.find (fun e => String.eqb (fst e) name) es.

(** [os.listdir]: the names of all entries. *)
Definition names (es : entries) : list string := map fst es.

(** The [dirs] and [files] components yielded by [os.walk]. *)
Definition dirnames (es : entries) : list string :=
  map fst (List.filter (fun e => is_dir (snd e)) es).

Definition filenames (es : entries) : list string :=
  map fst (List.filter (fun e => negb (is_dir (snd e))) es).

(** One item yielded by [os.walk]: [(root, dirs, files)]. *)
Definition walk_item : Type := string * list string * list string.

(** [os.walk(top)], top-down: the directory itself, then each sub-directory
    in turn.  A directory that cannot be scanned yields nothing (no [onerror]
    is given), and neither does something that is not a directory. *)
Fixpoint walk (top : string) (n : node) {struct n} : list walk_item :=
  match n with
  | File | Locked => []
  | Dir es =>
      (top, dirnames es, filenames es) ::
      flat_map (fun e => let '(name, child) := e in
                         walk (posixpath.join top name) child) es
  end.

(** Entry names are path components: none starts with a separator. *)
Fixpoint plain_names (n : node) {struct n} : bool :=
  match n with
  | File | Locked => true
  | Dir es =>
      forallb (fun e => let '(name, child) := e in
                        negb (Py.startswith name "/") && plain_names child) es
  end.

(** ** Exceptions and results of calls *)

Inductive exn_class : Type :=
| FileNotFoundError | NotADirectoryError | PermissionError
| ImportError | AttributeError | ValueError | RuntimeError | PredictionError
| SystemExit | KeyboardInterrupt.

(** [isinstance(e, Exception)]: [SystemExit] and [KeyboardInterrupt] derive
    from [BaseException] only, so [except Exception] lets them through. *)
Definition is_Exception (c : exn_class) : bool :=
  match c with
  | SystemExit | KeyboardInterrupt => false
  | _ => true
  end.

Record exn : Type := mk_exn {
  exn_cls : exn_class;
  exn_str : string           (* str(e) *)
}.

Inductive outcome (A : Type) : Type :=
| Return (a : A)
| Raise (e : exn).
Arguments Return {A} a.
Arguments Raise {A} e.

Definition nl : string := String (ascii_of_nat 10) EmptyString.

(** ** Interpreter state seen by [model_loader.py] *)

(** Python objects stored in a module namespace. *)
Inductive pyobj : Type :=
| PyStr (s : string)
| PyNone
| PyRef (addr : nat).      (* any other object, by identity *)

(** A module object: its [__dict__]. *)
Record pymodule : Type := mk_module { mod_dict : gmap string pyobj }.

(** What [importlib.util.spec_from_file_location] hands back. *)
Record ModuleSpec : Type := mk_spec {
  spec_name : string;
  spec_origin : string;
  spec_has_loader : bool     (* spec.loader is not None *)
}.

Inductive level : Type := ERROR | INFO | SUCCESS | DEBUG.

Definition log_record : Type := level * string.

(** Modelled from the spec: [utils/function_wrapper.py] is not among the
    sources; the Function Adapter is a wrapper constructed around the raw
    predict callable. *)
Inductive PredictionModel : Type :=
| FunctionBasedModel (func : pyobj).

Section World.

(** Everything global that the loader does not name: [sys.modules], the
    environment, open files, ... *)
Context {G : Type}.

Record world : Type := mk_world {
  fs : entries;              (* entries of the [miner_model] directory *)
  sys_path : list string;    (* [sys.path] *)
  globals : G;
  logs : list log_record     (* what [bt.logging] has emitted so far *)
}.

Definition log (lvl : level) (msg : string) (w : world) : world :=
  mk_world (fs w) (sys_path w) (globals w) (logs w ++ [(lvl, msg)]).

Definition set_sys_path (p : list string) (w : world) : world :=
  mk_world (fs w) p (globals w) (logs w).

(** Two states that differ at most in the emitted log records. *)
Definition same_but_logs (w w' : world) : Prop :=
  fs w' = fs w /\ sys_path w' = sys_path w /\ globals w' = globals w.

End World.
Arguments world G : clear implicits.

(** ** [my_model.py]: module-level search for the [.h5] and [.csv] files *)

Module my_model.

Definition marker : string := "LSTM_outside_example".

(** The two search loops differ in the extension only:
<<
    for root, dirs, files in os.walk(miner_model_dir):
        if 'LSTM_outside_example' in root: continue
        for file in files:
            if file.endswith(ext): found.append(os.path.join(root, file))
>> *)
Definition visit (ext : string) (item : walk_item) : list string :=
  let '(root, _, files) := item in
  if Py.contains marker root then []
  else map (posixpath.join root)
           (List.filter (fun file => Py.endswith file ext) files).

Definition search (ext : string) (miner_model_dir : string) (es : entries)
  : list string :=
  flat_map (visit ext) (walk miner_model_dir (Dir es)).

Definition model_files := search ".h5".
Definition csv_files := search ".csv".

Definition no_model_msg (miner_model_dir : string) : string :=
  "No .h5 model files found in " +:+ miner_model_dir +:+ "." +:+ nl +:+
  "Please save your model as a .h5 file in the miner_model directory, " +:+
  "or update model_path below to point to your model file.".

Definition no_data_msg (miner_model_dir : string) : string :=
  "No .csv data files found in " +:+ miner_model_dir +:+ "." +:+ nl +:+
  "Please save your data as a .csv file in the miner_model directory, " +:+
  "or update data_path below to point to your data file.".

(** [if not found: raise FileNotFoundError(msg)] then [found[0]]. *)
Definition first_or_raise (found : list string) (msg : string)
  : outcome string :=
  match found with
  | [] => Raise (mk_exn FileNotFoundError msg)
  | p :: _ => Return p
  end.

Definition model_path (miner_model_dir : string) (es : entries)
  : outcome string :=
  first_or_raise (model_files miner_model_dir es)
                 (no_model_msg miner_model_dir).

Definition data_path (miner_model_dir : string) (es : entries)
  : outcome string :=
  first_or_raise (csv_files miner_model_dir es)
                 (no_data_msg miner_model_dir).

(** *** The prediction helper *)

Inductive interval_method : Type := fixed | std.

Section Predict.

(** The loaded Keras model and the prepared data frame are opaque; the
    inference on [n_steps] rows ending at a timestamp yields a price, or
    nothing when the timestamp is malformed or outside the data. *)
Variables keras_model dataframe : Type.
Variable inference : keras_model -> dataframe -> string -> nat -> option Q.

(** The fixed half-width and the confidence multiplier of the interval
    policies. *)
Variable half_width : Q.
Variable z : Q.

(** Modelled from the spec: [student_models/helpers.py], which defines
    [predict_1hour_ahead], is not among the sources.  The point forecast
    comes from the model; the interval is [forecast -/+ half_width] under
    the [fixed] policy and [forecast -/+ z * sigma] under [std], which
    needs a supplied [sigma]. *)
Definition predict_1hour_ahead (model : keras_model) (data : dataframe)
    (timestamp : string) (n_steps : nat)
    (method : interval_method) (interval_std : option Q)
  : outcome (Q * (Q * Q)) :=
  match method, interval_std with
  | std, None =>
      Raise (mk_exn ValueError "interval_std is required for the std method")
  | _, _ =>
      match inference model data timestamp n_steps with
      | None =>
          Raise (mk_exn PredictionError
                   ("no prediction for timestamp " +:+ timestamp))
      | Some p =>
          match method, interval_std with
          | std, Some sigma => Return (p, (p - z * sigma, p + z * sigma))%Q
          | _, _ => Return (p, (p - half_width, p + half_width))%Q
          end
      end
  end.

Variable model : keras_model.   (* [model = load_model(model_path, ...)] *)
Variable data : dataframe.      (* [data = prepare_dataframe(df)] *)

Definition predict (timestamp : string) : outcome (Q * (Q * Q)) :=
  predict_1hour_ahead model data timestamp 12 fixed None.

End Predict.

(** *** Executing the module *)

Section Exec.

Context {G : Type}.

(** [os.path.abspath(__file__)] *)
Variable file : string.

Definition current_dir : string := posixpath.dirname file.
Definition miner_model_dir : string := posixpath.dirname current_dir.

(** The statements that call into other code, each acting on the
    interpreter state: the [import] statements of lines 9-15, which bind the
    imported names in the namespace, [load_model(path, compile=False)],
    [pd.read_csv(path)] and [prepare_dataframe(df)]; and the function object
    that [def predict] creates. *)
Variable imports : pymodule -> world G -> outcome pymodule * world G.
Variable load_model : string -> world G -> outcome pyobj * world G.
Variable read_csv : string -> world G -> outcome pyobj * world G.
Variable prepare_dataframe : pyobj -> world G -> outcome pyobj * world G.
Variable def_predict : pymodule -> pyobj.

Definition bind_name (name : string) (v : pyobj) (m : pymodule) : pymodule :=
  mk_module (<[name := v]> (mod_dict m)).

(** The statements of the module in order, each search reading the tree as
    it is when the search runs.  Of the names bound by the body itself
    [current_dir], [miner_model_dir], [model_path], [model], [data_path],
    [df], [data] and [predict] are tracked; the lists and loop variables of
    the two searches are not. *)
Definition exec (m : pymodule) (w : world G) : outcome pymodule * world G :=
  match imports m w with
  | (Raise e, w) => (Raise e, w)
  | (Return m, w) =>
      let m := bind_name "current_dir" (PyStr current_dir) m in
      let m := bind_name "miner_model_dir" (PyStr miner_model_dir) m in
      match model_path miner_model_dir (fs w) with
      | Raise e => (Raise e, w)
      | Return mp =>
          let m := bind_name "model_path" (PyStr mp) m in
          match load_model mp w with
          | (Raise e, w) => (Raise e, w)
          | (Return model, w) =>
              let m := bind_name "model" model m in
              match data_path miner_model_dir (fs w) with
              | Raise e => (Raise e, w)
              | Return dp =>
                  let m := bind_name "data_path" (PyStr dp) m in
                  match read_csv dp w with
                  | (Raise e, w) => (Raise e, w)
                  | (Return df, w) =>
                      let m := bind_name "df" df m in
                      match prepare_dataframe df w with
                      | (Raise e, w) => (Raise e, w)
                      | (Return data, w) =>
                          let m := bind_name "data" data m in
                          (Return (bind_name "predict" (def_predict m) m), w)
                      end
                  end
              end
          end
      end
  end.

End Exec.

End my_model.

(** ** [model_loader.py] *)

Module model_loader.
Section Loader.

Context {G : Type}.

(** [os.path.dirname(os.path.dirname(os.path.abspath(__file__)))]: the
    [miner_model] directory, whose entries are [fs w]. *)
Variable current_dir : string.

(** The import machinery and the code of the student module. *)
Variable spec_from_file_location : string -> string -> option ModuleSpec.
Variable exec_module :
  ModuleSpec -> pymodule -> world G -> outcome pymodule * world G.
Variable format_exc : exn -> string.

Definition student_models_dir : string :=
  posixpath.join current_dir "student_models".

(** [os.path.exists(student_models_dir)] *)
Definition path_exists (w : world G) : bool :=
  match lookup_entry "student_models" (fs w) with
  | Some _ => true
  | None => false
  end.

(** [os.listdir(student_models_dir)] *)
Definition listdir (w : world G) : outcome (list string) :=
  match lookup_entry "student_models" (fs w) with
  | Some (Dir es) => Return (names es)
  | Some File =>
      Raise (mk_exn NotADirectoryError
               ("[Errno 20] Not a directory: '" +:+ student_models_dir +:+ "'"))
  | Some Locked =>
      Raise (mk_exn PermissionError
               ("[Errno 13] Permission denied: '" +:+ student_models_dir +:+ "'"))
  | None =>
      Raise (mk_exn FileNotFoundError
               ("[Errno 2] No such file or directory: '"
                  +:+ student_models_dir +:+ "'"))
  end.

Definition excluded_files : list string := ["__init__.py"; "helpers.py"].

(** [file.endswith('.py') and file not in excluded_files] *)
Definition is_candidate (file : string) : bool :=
  Py.endswith file ".py" && negb (Py.mem file excluded_files).

(** The loop that fills [model_files] (and [models]). *)
Definition scan (listing : list string) : list string :=
  List.filter is_candidate listing.

Definition dir_not_found_msg : string :=
  "Student models directory not found: " +:+ student_models_dir.

Definition no_model_msg : string :=
  "No student model found in student_models/ folder." +:+ nl +:+
  "The default my_model.py should be present. " +:+
  "If you deleted it, restore it from the repository.".

Definition no_predict_msg (model_file : string) : string :=
  "Model file " +:+ model_file +:+ " does not have a predict() function." +:+
  nl +:+ "Please make sure you've filled in SECTION 3 of the template.".

(** [importlib.util.module_from_spec(spec)]; of the attributes it sets only
    [__name__] and [__file__] are tracked. *)
Definition module_from_spec (spec : ModuleSpec) : pymodule :=
  mk_module (<["__file__" := PyStr (spec_origin spec)]>
             (<["__name__" := PyStr (spec_name spec)]> ∅)).

Definition setattr (m : pymodule) (name : string) (v : pyobj) : pymodule :=
  mk_module (<[name := v]> (mod_dict m)).

(** Lines 80-82: [module_from_spec(spec)], then [__package__] and [__name__]
    are set. *)
Definition new_module (spec : ModuleSpec) (module_name : string) : pymodule :=
  let module := module_from_spec spec in
  let module :=
    setattr module "__package__" (PyStr "miner_model.student_models") in
  setattr module "__name__"
    (PyStr ("miner_model.student_models." +:+ module_name)).

(** [parent_dir = os.path.dirname(student_models_dir)] *)
Definition parent_dir : string := posixpath.dirname student_models_dir.

(** [if parent_dir not in sys.path: sys.path.insert(0, parent_dir)] *)
Definition add_parent_dir (w : world G) : world G :=
  if Py.mem parent_dir (sys_path w) then w
  else set_sys_path (parent_dir :: sys_path w) w.

(** The body of the [try] block. *)
Definition try_body (model_file module_name : string) (w : world G)
  : outcome (option PredictionModel) * world G :=
  let file_path := posixpath.join student_models_dir model_file in
  let spec :=
    spec_from_file_location
      ("miner_model.student_models." +:+ module_name) file_path in
  match spec with
  | None =>
      (Return None, log ERROR ("Could not create spec for " +:+ model_file) w)
  | Some spec =>
      if negb (spec_has_loader spec) then
        (Return None,
         log ERROR ("Could not create spec for " +:+ model_file) w)
      else
        let module := new_module spec module_name in
        let w := add_parent_dir w in
        match exec_module spec module w with
        | (Raise e, w) => (Raise e, w)
        | (Return module, w) =>
            match mod_dict module !! "predict" with
            | None => (Return None, log ERROR (no_predict_msg model_file) w)
            | Some predict =>
                let model := FunctionBasedModel predict in
                (Return (Some model),
                 log SUCCESS
                   ("Successfully loaded model from " +:+ model_file) w)
            end
        end
  end.

(** The [except Exception as e] clause. *)
Definition handler (model_file : string) (e : exn) (w : world G)
  : outcome (option PredictionModel) * world G :=
  let w :=
    log ERROR
      ("Failed to load model from " +:+ model_file +:+ ": " +:+ exn_str e) w in
  let w := log DEBUG (format_exc e) w in
  (Return None, w).

(** [try: ... except Exception as e: ...] *)
Definition load_file (model_file : string) (w : world G)
  : outcome (option PredictionModel) * world G :=
  let module_name := Py.drop_last3 model_file in
  match try_body model_file module_name w with
  | (Raise e, w') =>
      if is_Exception (exn_cls e) then handler model_file e w'
      else (Raise e, w')
  | r => r
  end.

(** Lines 32-59: locate the directory, list it, pick [model_files[0]]. *)
Definition discover (w : world G) : outcome (option string) * world G :=
  if negb (path_exists w) then
    (Return None, log ERROR dir_not_found_msg w)
  else
    match listdir w with
    | Raise e => (Raise e, w)
    | Return listing =>
        let model_files := scan listing in
        match model_files with
        | [] => (Return None, log ERROR no_model_msg w)
        | model_file :: _ =>
            (Return (Some model_file),
             log INFO ("Found student model: " +:+ model_file) w)
        end
    end.

Definition load_student_model (w : world G)
  : outcome (option PredictionModel) * world G :=
  match discover w with
  | (Return (Some model_file), w) => load_file model_file w
  | (Return None, w) => (Return None, w)
  | (Raise e, w) => (Raise e, w)
  end.

Definition list_available_models (w : world G) : outcome (list string) :=
  if negb (path_exists w) then Return []
  else
    match listdir w with
    | Raise e => Raise e
    | Return listing => Return (scan listing)
    end.

End Loader.
End model_loader.

(** ** The path condition of the load *)

Module load_path.
Section Reaches.

Context {G : Type}.
Variable current_dir : string.
Variable spec_from_file_location : string -> string -> option ModuleSpec.

(** The guards of lines 36, 48 and 75 together: [load_student_model] gets as
    far as executing a module. *)
Definition reaches_exec (w : world G) : bool :=
  match lookup_entry "student_models" (fs w) with
  | Some (Dir es) =>
      match model_loader.scan (names es) with
      | [] => false
      | model_file :: _ =>
          match spec_from_file_location
                  ("miner_model.student_models." +:+ Py.drop_last3 model_file)
                  (posixpath.join (model_loader.student_models_dir current_dir)
                     model_file) with
          | Some spec => spec_has_loader spec
          | None => false
          end
      end
  | _ => false
  end.

End Reaches.
End load_path.

(** ** Enumeration order *)

Module enumeration.

(** [x] is the first element of [l] with the property [P]. *)
Definition first_such {A} (P : A -> Prop) (l : list A) (x : A) : Prop :=
  exists pre post,
    l = pre ++ x :: post /\ Forall (fun y => ~ P y) pre /\ P x.

(** The files below [top] as [(directory path, file name)], in the order in
    which [os.walk] reports them. *)
Definition walk_files (top : string) (n : node) : list (string * string) :=
  flat_map (fun item : walk_item =>
              let '(root, _, files) := item in map (pair root) files)
           (walk top n).

(** A file with the extension in a directory whose path does not mention
    the example folder. *)
Definition wanted (ext : string) (rf : string * string) : Prop :=
  Py.contains "LSTM_outside_example" (fst rf) = false
  /\ Py.endswith (snd rf) ext = true.

(** The test of the search loops on such a pair, and the path they build
    from it. *)
Definition wanted_b (ext : string) (rf : string * string) : bool :=
  negb (Py.contains my_model.marker (fst rf)) && Py.endswith (snd rf) ext.

Definition join_pair (rf : string * string) : string :=
  posixpath.join (fst rf) (snd rf).

(** A name that ends in ['.py'] and is not reserved. *)
Definition model_name (file : string) : Prop :=
  Py.endswith file ".py" = true
  /\ file <> "__init__.py" /\ file <> "helpers.py".

(** The same tree enumerated in another order: the entries of a directory
    may come in any order, and so may those of its sub-directories. *)
Inductive same_tree : node -> node -> Prop :=
| same_File : same_tree File File
| same_Locked : same_tree Locked Locked
| same_Dir es1 es2 : same_entries es1 es2 -> same_tree (Dir es1) (Dir es2)
with same_entries : entries -> entries -> Prop :=
| same_nil : same_entries [] []
| same_cons name n1 n2 es1 es2 :
    same_tree n1 n2 -> same_entries es1 es2 ->
    same_entries ((name, n1) :: es1) ((name, n2) :: es2)
| same_swap e1 e2 es :
    same_entries (e1 :: e2 :: es) (e2 :: e1 :: es)
| same_trans es1 es2 es3 :
    same_entries es1 es2 -> same_entries es2 es3 -> same_entries es1 es3.

Scheme same_tree_mut := Minimality for same_tree Sort Prop
  with same_entries_mut := Minimality for same_entries Sort Prop.

End enumeration.

(** ** Sample directory states and import machinery *)

Module Samples.

Definition root : string := "/repo/miner_model".

(** A spec with a loader for every location, as for [.py] files. *)
Definition source_spec (name location : string) : option ModuleSpec :=
  Some (mk_spec name location true).

Definition no_traceback (e : exn) : string := "Traceback (most recent call last):".

(** A module whose code defines [predict]. *)
Definition exec_defines_predict (spec : ModuleSpec) (m : pymodule)
    (w : world unit) : outcome pymodule * world unit :=
  (Return (mk_module (<["predict" := PyRef 1]> (mod_dict m))), w).

(** A module whose code runs to the end and defines nothing. *)
Definition exec_empty (spec : ModuleSpec) (m : pymodule) (w : world unit)
  : outcome pymodule * world unit :=
  (Return m, w).

(** A module that calls [sys.exit(1)] at import time. *)
Definition exec_sys_exit (spec : ModuleSpec) (m : pymodule) (w : world unit)
  : outcome pymodule * world unit :=
  (Raise (mk_exn SystemExit "1"), w).

(** A module whose import fails with an ordinary exception. *)
Definition exec_import_error (spec : ModuleSpec) (m : pymodule)
    (w : world unit) : outcome pymodule * world unit :=
  (Raise (mk_exn ImportError "No module named 'tensorflow'"), w).

Definition student_models : node :=
  Dir [("__init__.py", File); ("helpers.py", File);
       ("my_model.py", File); ("other.py", File)].

Definition only_reserved : node :=
  Dir [("__init__.py", File); ("helpers.py", File); ("README.md", File)].

Definition w_default : world unit :=
  mk_world [("student_models", student_models);
            ("LSTM_outside_example", Dir [("lstm_model.h5", File)]);
            ("mine.h5", File); ("data.csv", File)] [] tt [].

Definition w_no_candidate : world unit :=
  mk_world [("student_models", only_reserved)] [] tt [].

Definition w_no_dir : world unit :=
  mk_world [("utils", Dir [("model_loader.py", File)])] [] tt [].

Definition w_not_a_dir : world unit :=
  mk_world [("student_models", File)] [] tt [].

(** The student saved a model under a name that mentions the example. *)
Definition es_marker_in_file_name : entries :=
  [("student_models", student_models);
   ("LSTM_outside_example", Dir [("lstm_model.h5", File)]);
   ("LSTM_outside_example_retrained.h5", File); ("data.csv", File)].

(** Only the example folder holds a model and data. *)
Definition es_only_example : entries :=
  [("student_models", student_models);
   ("LSTM_outside_example",
      Dir [("lstm_model.h5", File); ("prices.csv", File);
           ("checkpoints", Dir [("epoch1.h5", File)])])].


Definition w_only_example : world unit :=
  mk_world es_only_example [] tt [].

(** Stand-ins for the imports, Keras and pandas: the imports put the
    imported modules among the globals, here counted by a number. *)
Definition imports_ok (m : pymodule) (w : world nat)
  : outcome pymodule * world nat :=
  (Return (mk_module (<["pd" := PyRef 10]> (mod_dict m))),
   mk_world (fs w) (sys_path w) (S (globals w)) (logs w)).

Definition imports_fail (m : pymodule) (w : world nat)
  : outcome pymodule * world nat :=
  (Raise (mk_exn ImportError "No module named 'tensorflow'"), w).

Definition keras_load (path : string) (w : world nat)
  : outcome pyobj * world nat := (Return (PyRef 1), w).

Definition pandas_read (path : string) (w : world nat)
  : outcome pyobj * world nat := (Return (PyRef 2), w).

Definition prepare (df : pyobj) (w : world nat)
  : outcome pyobj * world nat := (Return (PyRef 3), w).

(** [my_model.py] as the executed module. *)
Definition exec_my_model (spec : ModuleSpec) (m : pymodule) (w : world nat)
  : outcome pymodule * world nat :=
  my_model.exec (spec_origin spec) imports_ok keras_load pandas_read prepare
    (fun _ => PyRef 4) m w.

Definition exec_my_model_no_tensorflow (spec : ModuleSpec) (m : pymodule)
    (w : world nat) : outcome pymodule * world nat :=
  my_model.exec (spec_origin spec) imports_fail keras_load pandas_read prepare
    (fun _ => PyRef 4) m w.

Definition n_default : world nat :=
  mk_world (fs w_default) [] 0 [].

Definition n_only_example : world nat :=
  mk_world es_only_example [] 0 [].

(** A model that knows one timestamp. *)
Definition one_point (model data : unit) (timestamp : string) (n_steps : nat)
  : option Q :=
  if String.eqb timestamp "2024-01-15T10:30:00+00:00" then Some (29 # 4)
  else None.

End Samples.

(** ** One tree under two enumeration orders *)

Module Orders.

Definition two_models : node :=
  Dir [("a.py", File); ("b.py", File)].

Definition two_models_reversed : node :=
  Dir [("b.py", File); ("a.py", File)].

(** The same package directory as the operating system may report it on two
    occasions. *)
Definition es_forward : entries :=
  [("student_models", two_models); ("a.h5", File); ("b.h5", File);
   ("x.csv", File); ("y.csv", File)].

Definition es_backward : entries :=
  [("y.csv", File); ("x.csv", File); ("b.h5", File); ("a.h5", File);
   ("student_models", two_models_reversed)].

Definition w_forward : world unit := mk_world es_forward [] tt [].
Definition w_backward : world unit := mk_world es_backward [] tt [].

(** One candidate of each kind, reported in two orders. *)
Definition es_single : entries :=
  [("student_models", Dir [("helpers.py", File); ("my_model.py", File)]);
   ("notes", Dir [("readme.txt", File)]); ("mine.h5", File);
   ("data.csv", File)].

Definition es_single_reordered : entries :=
  [("data.csv", File); ("mine.h5", File);
   ("notes", Dir [("readme.txt", File)]);
   ("student_models", Dir [("my_model.py", File); ("helpers.py", File)])].

Definition w_single : world unit := mk_world es_single [] tt [].
Definition w_single_reordered : world unit :=
  mk_world es_single_reordered [] tt [].

(** A model in a sub-directory that is enumerated first, and two at the top
    after a file that is not a model. *)
Definition es_nested_first : entries :=
  [("sub", Dir [("a.h5", File); ("z.csv", File)]); ("notes.txt", File);
   ("b.h5", File); ("c.h5", File); ("y.csv", File)].

End Orders.

(** * Properties *)

(** ** The primitives at work *)

Example walk_example :
  walk "/r" (Dir [("a.h5", File); ("d", Dir [("b.csv", File)]); ("c", File)])
  = [("/r", ["d"], ["a.h5"; "c"]); ("/r/d", [], ["b.csv"])].
Proof. reflexivity. Qed.

Example dirname_example :
  posixpath.dirname "/repo/miner_model/student_models" = "/repo/miner_model"
  /\ posixpath.dirname "/student_models" = "/"
  /\ posixpath.dirname "student_models" = "".
Proof. repeat split; reflexivity. Qed.

Example search_example :
  my_model.model_files "/repo/miner_model"
    [("student_models", Dir [("my_model.py", File)]);
     ("LSTM_outside_example", Dir [("lstm_model.h5", File)]);
     ("mine.h5", File); ("data.csv", File)]
  = ["/repo/miner_model/mine.h5"].
Proof. reflexivity. Qed.

(** ** Lists and strings *)

Lemma append_cons (c : ascii) (a b : string) :
  String c a +:+ b = String c (a +:+ b).
Proof. reflexivity. Qed.

Lemma append_nil (b : string) : "" +:+ b = b.
Proof. reflexivity. Qed.

Lemma prefix_app (m a b : string) :
  String.prefix m a = true -> String.prefix m (a +:+ b) = true.
Proof.
  revert a. induction m as [|c m IH]; intros a.
  { intros _. destruct (a +:+ b); reflexivity. }
  destruct a as [|c' a]; [discriminate|].
  rewrite append_cons. simpl.
  destruct (ascii_dec c c'); [apply IH | discriminate].
Qed.

Lemma contains_cons (m : string) (c : ascii) (a : string) :
  Py.contains m (String c a)
  = String.prefix m (String c a) || Py.contains m a.
Proof. reflexivity. Qed.

Lemma contains_app (m a b : string) :
  Py.contains m a = true -> Py.contains m (a +:+ b) = true.
Proof.
  induction a as [|c a IH].
  - simpl. rewrite orb_false_r. intros H.
    destruct m; [|discriminate]. rewrite append_nil. destruct b; reflexivity.
  - rewrite append_cons, !contains_cons, !orb_true_iff. intros [H|H].
    + left. rewrite <- append_cons. exact (prefix_app m (String c a) b H).
    + right. apply IH, H.
Qed.

(** [os.path.join] with a plain name extends its first argument. *)
Lemma join_extends (a name : string) :
  Py.startswith name "/" = false ->
  exists suffix, posixpath.join a name = a +:+ suffix.
Proof.
  intros H. unfold posixpath.join. rewrite H.
  destruct (String.eqb a "" || Py.endswith a "/"); eauto.
Qed.

Lemma join_plain (a name : string) :
  Py.startswith name "/" = false -> a <> "" -> Py.endswith a "/" = false ->
  posixpath.join a name = a +:+ "/" +:+ name.
Proof.
  intros Hn Ha He. unfold posixpath.join. rewrite Hn, He.
  destruct a; [contradiction|reflexivity].
Qed.


Lemma mem_true (x : string) (l : list string) : Py.mem x l = true <-> x ∈ l.
Proof. unfold Py.mem. apply bool_decide_eq_true. Qed.

Lemma mem_false (x : string) (l : list string) : Py.mem x l = false <-> x ∉ l.
Proof. unfold Py.mem. apply bool_decide_eq_false. Qed.

(** The first element that a filter keeps: everything before it is dropped. *)
Lemma filter_first {A} (P : A -> bool) (l : list A) (x : A) (rest : list A) :
  List.filter P l = x :: rest ->
  exists pre post,
    l = pre ++ x :: post /\ Forall (fun y => P y = false) pre /\
    P x = true /\ rest = List.filter P post.
Proof.
  induction l as [|y l IH]; simpl; [discriminate|].
  destruct (P y) eqn:Hy.
  - intros [= -> <-]. exists [], l. repeat split; auto.
  - intros H. destruct (IH H) as (pre & post & -> & Hpre & Hx & Hrest).
    exists (y :: pre), post. repeat split; auto.
Qed.

(** The first element of a [flat_map]: the pieces before it are empty. *)
Lemma flat_map_first {A B} (f : A -> list B) (l : list A) (x : B) (rest : list B) :
  flat_map f l = x :: rest ->
  exists pre y post tl,
    l = pre ++ y :: post /\ Forall (fun z => f z = []) pre /\ f y = x :: tl.
Proof.
  induction l as [|y l IH]; simpl; [discriminate|].
  destruct (f y) as [|b tl] eqn:Hy; simpl.
  - intros H. destruct (IH H) as (pre & y' & post & tl & -> & Hpre & Hy').
    exists (y :: pre), y', post, tl. repeat split; auto.
  - intros [= -> <-]. exists [], y, l, tl. repeat split; auto.
Qed.

Lemma flat_map_all_nil {A B} (f : A -> list B) (l : list A) :
  (forall x, In x l -> f x = []) -> flat_map f l = [].
Proof.
  induction l as [|y l IH]; simpl; intros H; [reflexivity|].
  rewrite (H y) by auto. simpl. apply IH. auto.
Qed.

Lemma filter_all_false {A} (P : A -> bool) (l : list A) :
  (forall x, In x l -> P x = false) -> List.filter P l = [].
Proof.
  induction l as [|y l IH]; simpl; intros H; [reflexivity|].
  rewrite (H y) by auto. apply IH. auto.
Qed.

(** ** [dirname] undoes [join] *)

Lemma endswith_cons (c : ascii) (a suf : string) :
  Py.endswith (String c a) suf
  = String.eqb (String c a) suf || Py.endswith a suf.
Proof. reflexivity. Qed.

Lemma endswith_sep_last (c : ascii) :
  Py.endswith (String c "") "/" = posixpath.is_sep c.
Proof.
  rewrite endswith_cons. simpl. unfold posixpath.is_sep, posixpath.sep.
  destruct (Ascii.eqb c "/"); reflexivity.
Qed.

Lemma has_sep_app_sep (a s : string) :
  posixpath.has_sep (a +:+ String "/" s) = true.
Proof.
  induction a as [|c a IH]; [reflexivity|].
  rewrite append_cons. simpl. rewrite IH. apply orb_true_r.
Qed.

Lemma head_part_app (a s : string) :
  posixpath.has_sep s = false ->
  posixpath.head_part (a +:+ String "/" s) = a +:+ "/".
Proof.
  intros Hs. induction a as [|c a IH].
  - rewrite !append_nil. simpl. rewrite Hs. reflexivity.
  - rewrite !append_cons. simpl. rewrite has_sep_app_sep, IH. reflexivity.
Qed.

Lemma all_sep_app (a : string) :
  a <> "" -> Py.endswith a "/" = false ->
  posixpath.all_sep (a +:+ "/") = false.
Proof.
  induction a as [|c a IH]; [contradiction|]. intros _ He.
  rewrite append_cons. simpl.
  destruct a as [|c' a].
  - rewrite endswith_sep_last in He. rewrite He. reflexivity.
  - rewrite endswith_cons in He. apply orb_false_iff in He as [_ He].
    rewrite IH by (auto; discriminate). apply andb_false_r.
Qed.

Lemma rstrip_sep_app (a : string) :
  a <> "" -> Py.endswith a "/" = false ->
  posixpath.rstrip_sep (a +:+ "/") = a.
Proof.
  induction a as [|c a IH]; [contradiction|]. intros _ He.
  rewrite append_cons. simpl.
  destruct a as [|c' a].
  - rewrite endswith_sep_last in He. rewrite append_nil. simpl.
    rewrite He. reflexivity.
  - rewrite endswith_cons in He. apply orb_false_iff in He as [_ He].
    rewrite IH by (auto; discriminate).
    rewrite andb_false_r. reflexivity.
Qed.

Lemma dirname_join (a name : string) :
  a <> "" -> Py.endswith a "/" = false ->
  Py.startswith name "/" = false -> posixpath.has_sep name = false ->
  posixpath.dirname (posixpath.join a name) = a.
Proof.
  intros Ha He Hn Hs. rewrite (join_plain a name Hn Ha He).
  unfold posixpath.dirname.
  change ("/" +:+ name) with (String "/" name).
  rewrite (head_part_app a name Hs), (all_sep_app a Ha He),
    (rstrip_sep_app a Ha He).
  destruct (a +:+ "/") eqn:E; [|reflexivity].
  destruct a; [contradiction|discriminate].
Qed.

(** The directory that the loader puts on [sys.path] is the [miner_model]
    directory itself. *)
Lemma parent_dir_is_current_dir (current_dir : string) :
  current_dir <> "" -> Py.endswith current_dir "/" = false ->
  model_loader.parent_dir current_dir = current_dir.
Proof.
  intros Ha He. unfold model_loader.parent_dir, model_loader.student_models_dir.
  apply dirname_join; auto.
Qed.

(** ** The candidate filter of [model_loader.py] *)

Lemma is_candidate_spec (file : string) :
  model_loader.is_candidate file = true <->
  Py.endswith file ".py" = true /\ file ∉ model_loader.excluded_files.
Proof.
  unfold model_loader.is_candidate.
  rewrite andb_true_iff, negb_true_iff, mem_false. reflexivity.
Qed.

Lemma elem_of_scan (file : string) (listing : list string) :
  file ∈ model_loader.scan listing <->
  file ∈ listing /\ model_loader.is_candidate file = true.
Proof.
  unfold model_loader.scan. rewrite !list_elem_of_In. apply filter_In.
Qed.

Lemma scan_not_reserved (file : string) (listing : list string) :
  file ∈ model_loader.scan listing ->
  file <> "__init__.py" /\ file <> "helpers.py".
Proof.
  rewrite elem_of_scan, is_candidate_spec. intros (_ & _ & Hex).
  split; intros ->; apply Hex; unfold model_loader.excluded_files;
    set_solver.
Qed.

(** ** The discovery phase of [load_student_model] *)

Section LoaderFacts.

Context {G : Type}.
Variable current_dir : string.
Variable spec_from_file_location : string -> string -> option ModuleSpec.
Variable exec_module :
  ModuleSpec -> pymodule -> world G -> outcome pymodule * world G.
Variable format_exc : exn -> string.

Local Abbreviation discover := (model_loader.discover (G:=G) current_dir).
Local Abbreviation list_available_models :=
  (model_loader.list_available_models (G:=G) current_dir).
Local Abbreviation load_file :=
  (model_loader.load_file current_dir spec_from_file_location exec_module
     format_exc).
Local Abbreviation load_student_model :=
  (model_loader.load_student_model current_dir spec_from_file_location
     exec_module format_exc).

Lemma discover_missing (w : world G) :
  lookup_entry "student_models" (fs w) = None ->
  discover w
  = (Return None, log ERROR (model_loader.dir_not_found_msg current_dir) w).
Proof.
  intros H. unfold model_loader.discover, model_loader.path_exists.
  rewrite H. reflexivity.
Qed.

Lemma discover_not_listable (w : world G) (n : node) :
  lookup_entry "student_models" (fs w) = Some n ->
  (forall es, n <> Dir es) ->
  exists e,
    (exn_cls e = NotADirectoryError \/ exn_cls e = PermissionError)
    /\ discover w = (Raise e, w).
Proof.
  intros H Hn. unfold model_loader.discover, model_loader.path_exists,
    model_loader.listdir.
  rewrite H. destruct n as [|es|]; simpl.
  - eexists. split; [|reflexivity]. left. reflexivity.
  - destruct (Hn es). reflexivity.
  - eexists. split; [|reflexivity]. right. reflexivity.
Qed.

Lemma discover_directory (w : world G) (es : entries) :
  lookup_entry "student_models" (fs w) = Some (Dir es) ->
  discover w
  = match model_loader.scan (names es) with
    | [] => (Return None, log ERROR model_loader.no_model_msg w)
    | model_file :: _ =>
        (Return (Some model_file),
         log INFO ("Found student model: " +:+ model_file) w)
    end.
Proof.
  intros H. unfold model_loader.discover, model_loader.path_exists,
    model_loader.listdir.
  rewrite H. reflexivity.
Qed.

Lemma list_available_models_directory (w : world G) (es : entries) :
  lookup_entry "student_models" (fs w) = Some (Dir es) ->
  list_available_models w = Return (model_loader.scan (names es)).
Proof.
  intros H. unfold model_loader.list_available_models,
    model_loader.path_exists, model_loader.listdir.
  rewrite H. reflexivity.
Qed.

Lemma list_available_models_inv (w : world G) (l : list string) :
  list_available_models w = Return l ->
  (lookup_entry "student_models" (fs w) = None /\ l = []) \/
  exists es, lookup_entry "student_models" (fs w) = Some (Dir es) /\
             l = model_loader.scan (names es).
Proof.
  unfold model_loader.list_available_models, model_loader.path_exists,
    model_loader.listdir.
  destruct (lookup_entry "student_models" (fs w)) as [[|es|]|]; simpl.
  - discriminate.
  - intros [= <-]. right. eauto.
  - discriminate.
  - intros [= <-]. left. auto.
Qed.

Lemma discover_selected_inv (w : world G) (model_file : string) (w' : world G) :
  discover w = (Return (Some model_file), w') ->
  exists es rest,
    lookup_entry "student_models" (fs w) = Some (Dir es) /\
    model_loader.scan (names es) = model_file :: rest /\
    w' = log INFO ("Found student model: " +:+ model_file) w.
Proof.
  unfold model_loader.discover, model_loader.path_exists,
    model_loader.listdir.
  destruct (lookup_entry "student_models" (fs w)) as [[|es|]|]; simpl;
    try discriminate.
  destruct (model_loader.scan (names es)) as [|f rest] eqn:Hs;
    [discriminate|].
  intros [= <- <-]. exists es, rest. auto.
Qed.

End LoaderFacts.

(** ** What [load_student_model] returns *)

Section LoaderClaims.

Context {G : Type}.
Variable current_dir : string.
Variable spec_from_file_location : string -> string -> option ModuleSpec.
Variable exec_module :
  ModuleSpec -> pymodule -> world G -> outcome pymodule * world G.
Variable format_exc : exn -> string.

Local Abbreviation discover := (model_loader.discover (G:=G) current_dir).
Local Abbreviation list_available_models :=
  (model_loader.list_available_models (G:=G) current_dir).
Local Abbreviation load_file :=
  (model_loader.load_file current_dir spec_from_file_location exec_module
     format_exc).
Local Abbreviation load_student_model :=
  (model_loader.load_student_model current_dir spec_from_file_location
     exec_module format_exc).
Local Abbreviation student_models_dir :=
  (model_loader.student_models_dir current_dir).
Local Abbreviation add_parent_dir :=
  (model_loader.add_parent_dir (G:=G) current_dir).

Lemma load_student_model_directory (w : world G) (es : entries) :
  lookup_entry "student_models" (fs w) = Some (Dir es) ->
  load_student_model w
  = match model_loader.scan (names es) with
    | [] => (Return None, log ERROR model_loader.no_model_msg w)
    | model_file :: _ =>
        load_file model_file
          (log INFO ("Found student model: " +:+ model_file) w)
    end.
Proof.
  intros H. unfold model_loader.load_student_model.
  rewrite (discover_directory _ _ _ H).
  destruct (model_loader.scan (names es)); reflexivity.
Qed.

Lemma same_but_logs_refl (w : world G) : same_but_logs w w.
Proof. repeat split. Qed.

Lemma add_parent_dir_effect (w : world G) :
  let w1 := add_parent_dir w in
  fs w1 = fs w /\ globals w1 = globals w /\ logs w1 = logs w
  /\ model_loader.parent_dir current_dir ∈ sys_path w1
  /\ (model_loader.parent_dir current_dir ∉ sys_path w ->
      sys_path w1 = model_loader.parent_dir current_dir :: sys_path w)
  /\ (model_loader.parent_dir current_dir ∈ sys_path w -> w1 = w).
Proof.
  unfold model_loader.add_parent_dir.
  destruct (Py.mem (model_loader.parent_dir current_dir) (sys_path w)) eqn:Hm;
    cbv zeta.
  - apply mem_true in Hm. repeat split; auto. intros Hn. contradiction.
  - apply mem_false in Hm. repeat split; auto.
    + simpl. apply list_elem_of_here.
    + intros Hin. contradiction.
Qed.

(** Every way through the [try] block and its [except] clause. *)
Lemma load_file_cases (model_file : string) (w : world G) :
  let name := "miner_model.student_models." +:+ Py.drop_last3 model_file in
  let path := posixpath.join student_models_dir model_file in
  ((spec_from_file_location name path = None
    \/ exists spec, spec_from_file_location name path = Some spec
                    /\ spec_has_loader spec = false)
   /\ load_file model_file w
      = (Return None,
         log ERROR ("Could not create spec for " +:+ model_file) w))
  \/ exists spec r w2,
       spec_from_file_location name path = Some spec
       /\ spec_has_loader spec = true
       /\ exec_module spec
            (model_loader.new_module spec (Py.drop_last3 model_file))
            (add_parent_dir w) = (r, w2)
       /\ match r with
          | Return module =>
              match mod_dict module !! "predict" with
              | Some predict =>
                  load_file model_file w
                  = (Return (Some (FunctionBasedModel predict)),
                     log SUCCESS
                       ("Successfully loaded model from " +:+ model_file) w2)
              | None =>
                  load_file model_file w
                  = (Return None,
                     log ERROR (model_loader.no_predict_msg model_file) w2)
              end
          | Raise e =>
              if is_Exception (exn_cls e) then
                load_file model_file w
                = (Return None,
                   log DEBUG (format_exc e)
                     (log ERROR
                        ("Failed to load model from " +:+ model_file +:+ ": "
                           +:+ exn_str e) w2))
              else load_file model_file w = (Raise e, w2)
          end.
Proof.
  cbv zeta. unfold model_loader.load_file, model_loader.try_body. cbv zeta.
  destruct (spec_from_file_location _ _) as [spec|] eqn:Hspec.
  2:{ left. split; [left; reflexivity | reflexivity]. }
  destruct (spec_has_loader spec) eqn:Hloader; cbn [negb].
  2:{ left. split; [right; eauto | reflexivity]. }
  right.
  destruct (exec_module spec _ (add_parent_dir w)) as [r w2] eqn:Hexec.
  exists spec, r, w2. repeat split; auto.
  destruct r as [module|e].
  - destruct (mod_dict module !! "predict"); reflexivity.
  - destruct (is_Exception (exn_cls e)); reflexivity.
Qed.

(** C6: when the [student_models] directory holds no candidate [.py] file,
    [load_student_model] logs the error that no student model was found in
    the [student_models/] folder and returns [None]: no adapter. *)
Theorem no_candidate_no_adapter (w : world G) (es : entries) :
  lookup_entry "student_models" (fs w) = Some (Dir es) ->
  model_loader.scan (names es) = [] ->
  load_student_model w
  = (Return None, log ERROR model_loader.no_model_msg w)
  /\ fst (discover w) = Return None
  /\ String.prefix "No student model found in student_models/ folder."
       model_loader.no_model_msg = true.
Proof.
  intros Hdir Hscan. repeat split.
  - rewrite (load_student_model_directory _ _ Hdir), Hscan. reflexivity.
  - rewrite (discover_directory _ _ _ Hdir), Hscan. reflexivity.
Qed.

(** C8: whatever the directory holds, ['__init__.py'] and ['helpers.py'] are
    never among the candidates: they are not in the list returned by
    [list_available_models], and they are not the file that
    [load_student_model] selects. *)
Theorem reserved_names_never_candidates (w : world G) :
  (forall listing : list string,
      ("__init__.py" ∉ model_loader.scan listing)
      /\ ("helpers.py" ∉ model_loader.scan listing))
  /\ match list_available_models w with
     | Return models => ("__init__.py" ∉ models) /\ ("helpers.py" ∉ models)
     | Raise _ => True
     end
  /\ match fst (discover w) with
     | Return (Some model_file) =>
         model_file <> "__init__.py" /\ model_file <> "helpers.py"
     | _ => True
     end.
Proof.
  assert (Hscan : forall listing : list string,
             ("__init__.py" ∉ model_loader.scan listing)
             /\ ("helpers.py" ∉ model_loader.scan listing)).
  { intros listing.
    split; intros Hin; apply scan_not_reserved in Hin; destruct Hin; congruence. }
  split; [exact Hscan|]. split.
  - destruct (list_available_models w) as [models|e] eqn:Hl; [|exact I].
    apply list_available_models_inv in Hl as [[_ ->]|(es & _ & ->)].
    + split; apply not_elem_of_nil.
    + apply Hscan.
  - destruct (discover w) as [[[f|]|e] w'] eqn:Hd; simpl; try exact I.
    apply discover_selected_inv in Hd as (es & rest & _ & Hs & _).
    apply (scan_not_reserved f (names es)). rewrite Hs. apply list_elem_of_here.
Qed.

(** C10: when the [student_models] directory exists, the file that
    [load_student_model] selects and loads is the first element of the list
    that [list_available_models] returns, and a load is attempted exactly
    when that list is not empty. *)
Theorem load_selects_first_available (w : world G) (es : entries) :
  lookup_entry "student_models" (fs w) = Some (Dir es) ->
  exists models,
    list_available_models w = Return models
    /\ fst (discover w) = Return (head models)
    /\ load_student_model w
       = match models with
         | [] => (Return None, log ERROR model_loader.no_model_msg w)
         | model_file :: _ =>
             load_file model_file
               (log INFO ("Found student model: " +:+ model_file) w)
         end
    /\ ((exists model_file, fst (discover w) = Return (Some model_file))
        <-> models <> []).
Proof.
  intros Hdir. exists (model_loader.scan (names es)).
  split; [exact (list_available_models_directory _ _ _ Hdir)|].
  rewrite (load_student_model_directory _ _ Hdir),
    (discover_directory _ _ _ Hdir).
  destruct (model_loader.scan (names es)) as [|f rest]; simpl.
  - split; [reflexivity|]. split; [reflexivity|]. split.
    + intros [f [=]].
    + intros []. reflexivity.
  - split; [reflexivity|]. split; [reflexivity|]. split.
    + discriminate.
    + intros _. exists f. reflexivity.
Qed.

(** C4: a module that executes without error but defines no [predict] makes
    [load_student_model] log an error naming the file and return [None]. *)
Theorem missing_predict_returns_none
    (w : world G) (es : entries) (model_file : string) (rest : list string)
    (spec : ModuleSpec) (module : pymodule) (w' : world G) :
  lookup_entry "student_models" (fs w) = Some (Dir es) ->
  model_loader.scan (names es) = model_file :: rest ->
  spec_from_file_location
    ("miner_model.student_models." +:+ Py.drop_last3 model_file)
    (posixpath.join student_models_dir model_file) = Some spec ->
  spec_has_loader spec = true ->
  exec_module spec
    (model_loader.new_module spec (Py.drop_last3 model_file))
    (add_parent_dir (log INFO ("Found student model: " +:+ model_file) w))
  = (Return module, w') ->
  mod_dict module !! "predict" = None ->
  load_student_model w
  = (Return None, log ERROR (model_loader.no_predict_msg model_file) w').
Proof.
  intros Hdir Hscan Hspec Hloader Hexec Hpredict.
  rewrite (load_student_model_directory _ _ Hdir), Hscan.
  unfold model_loader.load_file, model_loader.try_body.
  rewrite Hspec, Hloader. cbn [negb]. cbv zeta.
  rewrite Hexec, Hpredict. reflexivity.
Qed.

(** C5, as amended: when [student_models] is missing or is a directory that
    can be listed, and
    the exceptions raised while the module is executed derive from
    [Exception], [load_student_model] raises nothing: either it returns a
    [FunctionBasedModel] around the [predict] attribute of the executed
    module, or it returns [None] after logging an error. *)
Theorem load_returns_adapter_or_none (w : world G) :
  (lookup_entry "student_models" (fs w) = None
   \/ exists es, lookup_entry "student_models" (fs w) = Some (Dir es)) ->
  (forall spec m w1 e w2,
      exec_module spec m w1 = (Raise e, w2) -> is_Exception (exn_cls e) = true) ->
  (exists spec m w1 module w2 predict model_file,
      exec_module spec m w1 = (Return module, w2)
      /\ mod_dict module !! "predict" = Some predict
      /\ load_student_model w
         = (Return (Some (FunctionBasedModel predict)),
            log SUCCESS ("Successfully loaded model from " +:+ model_file) w2))
  \/ (exists msg w2,
        load_student_model w = (Return None, log ERROR msg w2)
        \/ exists e,
             load_student_model w
             = (Return None, log DEBUG (format_exc e) (log ERROR msg w2))).
Proof.
  intros Hlistable Hexn.
  destruct (lookup_entry "student_models" (fs w)) as [[|es|]|] eqn:Hdir.
  - destruct Hlistable as [[=]|[es [=]]].
  - rewrite (load_student_model_directory _ _ Hdir).
    destruct (model_loader.scan (names es)) as [|f rest].
    { right. eexists _, w. left. reflexivity. }
    destruct (load_file_cases f
                (log INFO ("Found student model: " +:+ f) w))
      as [[_ ->]|(spec & r & w2 & _ & _ & Hexec & Hres)].
    { right. eexists _, _. left. reflexivity. }
    destruct r as [module|e].
    + destruct (mod_dict module !! "predict") as [predict|] eqn:Hp.
      * left. do 7 eexists.
        split; [exact Hexec|]. split; [exact Hp|exact Hres].
      * right. eexists _, w2. left. exact Hres.
    + rewrite (Hexn _ _ _ _ _ Hexec) in Hres.
      right. eexists _, w2. right. exists e. exact Hres.
  - destruct Hlistable as [[=]|[es [=]]].
  - right. unfold model_loader.load_student_model.
    rewrite (discover_missing _ _ Hdir). eexists _, w. left. reflexivity.
Qed.

(** C9, as amended: when [load_student_model] gets as far as executing the
    module, it first puts [parent_dir] at the front of [sys.path] unless it
    is already on it, and apart from that and its log records the state it
    leaves is the one the executed module left, whether loading succeeds or
    fails; when it returns earlier, [sys.path] and the rest of the global
    state are unchanged. *)
Theorem loader_effect_on_sys_path (w : world G) :
  let w' := snd (load_student_model w) in
  let name f := "miner_model.student_models." +:+ Py.drop_last3 f in
  let path f := posixpath.join student_models_dir f in
  ((lookup_entry "student_models" (fs w) = None
    \/ (exists n, lookup_entry "student_models" (fs w) = Some n
                  /\ forall es, n <> Dir es)
    \/ (exists es, lookup_entry "student_models" (fs w) = Some (Dir es)
                   /\ model_loader.scan (names es) = [])
    \/ (exists es f rest,
          lookup_entry "student_models" (fs w) = Some (Dir es)
          /\ model_loader.scan (names es) = f :: rest
          /\ (spec_from_file_location (name f) (path f) = None
              \/ exists spec,
                   spec_from_file_location (name f) (path f) = Some spec
                   /\ spec_has_loader spec = false)))
   /\ same_but_logs w w')
  \/ (exists es f rest spec r w2,
        lookup_entry "student_models" (fs w) = Some (Dir es)
        /\ model_loader.scan (names es) = f :: rest
        /\ spec_from_file_location (name f) (path f) = Some spec
        /\ spec_has_loader spec = true
        /\ let w1 :=
             add_parent_dir (log INFO ("Found student model: " +:+ f) w) in
           exec_module spec (model_loader.new_module spec (Py.drop_last3 f)) w1
           = (r, w2)
           /\ fs w1 = fs w /\ globals w1 = globals w
           /\ model_loader.parent_dir current_dir ∈ sys_path w1
           /\ (model_loader.parent_dir current_dir ∉ sys_path w ->
               sys_path w1 = model_loader.parent_dir current_dir :: sys_path w)
           /\ (model_loader.parent_dir current_dir ∈ sys_path w ->
               sys_path w1 = sys_path w)
           /\ same_but_logs w2 w').
Proof.
  cbv zeta.
  destruct (lookup_entry "student_models" (fs w)) as [[|es|]|] eqn:Hdir.
  - left. split; [right; left; exists File; split; [reflexivity|discriminate]|].
    destruct (discover_not_listable current_dir w File Hdir) as (e & _ & Hd);
      [discriminate|].
    unfold model_loader.load_student_model. rewrite Hd.
    apply same_but_logs_refl.
  - rewrite (load_student_model_directory _ _ Hdir).
    destruct (model_loader.scan (names es)) as [|f rest] eqn:Hscan.
    { left. split; [right; right; left; eauto|]. repeat split. }
    pose proof (load_file_cases f
                  (log INFO ("Found student model: " +:+ f) w)) as Hcases.
    cbv zeta in Hcases.
    destruct Hcases as [[Hspec ->]|(spec & r & w2 & Hspec & Hl & Hexec & Hres)].
    { left. split; [|repeat split].
      right; right; right. exists es, f, rest. auto. }
    right. exists es, f, rest, spec, r, w2.
    destruct (add_parent_dir_effect
                (log INFO ("Found student model: " +:+ f) w))
      as (Hfs & Hg & _ & Hin & Hnew & Hold).
    repeat split; auto.
    + intros Hn. rewrite Hold; auto.
    + destruct r as [module|e].
      * destruct (mod_dict module !! "predict"); rewrite Hres; reflexivity.
      * destruct (is_Exception (exn_cls e)); rewrite Hres; reflexivity.
    + destruct r as [module|e].
      * destruct (mod_dict module !! "predict"); rewrite Hres; reflexivity.
      * destruct (is_Exception (exn_cls e)); rewrite Hres; reflexivity.
    + destruct r as [module|e].
      * destruct (mod_dict module !! "predict"); rewrite Hres; reflexivity.
      * destruct (is_Exception (exn_cls e)); rewrite Hres; reflexivity.
  - left.
    split; [right; left; exists Locked; split; [reflexivity|discriminate]|].
    destruct (discover_not_listable current_dir w Locked Hdir) as (e & _ & Hd);
      [discriminate|].
    unfold model_loader.load_student_model. rewrite Hd.
    apply same_but_logs_refl.
  - left. split; [auto|].
    unfold model_loader.load_student_model.
    rewrite (discover_missing _ _ Hdir). repeat split.
Qed.

End LoaderClaims.

(** ** The searches of [my_model.py] *)

Lemma visit_elem (ext : string) (item : walk_item) (p : string) :
  In p (my_model.visit ext item) <->
  exists file,
    Py.contains my_model.marker (fst (fst item)) = false
    /\ In file (snd item) /\ Py.endswith file ext = true
    /\ p = posixpath.join (fst (fst item)) file.
Proof.
  destruct item as [[root ds] fls]. unfold my_model.visit. simpl.
  destruct (Py.contains my_model.marker root).
  - split; [intros [] | intros (file & [=] & _)].
  - rewrite in_map_iff. split.
    + intros (file & <- & Hin). apply filter_In in Hin as [Hin Hext].
      exists file. auto.
    + intros (file & _ & Hin & Hext & ->). exists file. split; [reflexivity|].
      apply filter_In. auto.
Qed.

Lemma search_elem (ext dir : string) (es : entries) (p : string) :
  In p (my_model.search ext dir es) <->
  exists root ds fls file,
    In (root, ds, fls) (walk dir (Dir es))
    /\ Py.contains my_model.marker root = false
    /\ In file fls /\ Py.endswith file ext = true
    /\ p = posixpath.join root file.
Proof.
  unfold my_model.search. rewrite in_flat_map. split.
  - intros ([[root ds] fls] & Hitem & Hp).
    apply visit_elem in Hp as (file & Hm & Hin & Hext & ->).
    exists root, ds, fls, file. auto.
  - intros (root & ds & fls & file & Hitem & Hm & Hin & Hext & ->).
    exists (root, ds, fls). split; [exact Hitem|].
    apply visit_elem. exists file. auto.
Qed.

Lemma first_or_raise_return (found : list string) (msg p : string) :
  my_model.first_or_raise found msg = Return p <-> found !! 0 = Some p.
Proof.
  destruct found as [|q rest]; simpl; split; intros [=]; subst; reflexivity.
Qed.

Lemma first_or_raise_raise (found : list string) (msg : string) (e : exn) :
  my_model.first_or_raise found msg = Raise e <->
  found = [] /\ e = mk_exn FileNotFoundError msg.
Proof.
  destruct found as [|q rest]; simpl; split.
  - intros [= <-]. auto.
  - intros [_ ->]. reflexivity.
  - intros [=].
  - intros [[=] _].
Qed.

(** When every file with the extension lies in a directory whose path
    mentions the marker, the search finds nothing. *)
Lemma search_all_excluded (ext dir : string) (es : entries) :
  (forall root ds fls file,
      In (root, ds, fls) (walk dir (Dir es)) -> In file fls ->
      Py.endswith file ext = true -> Py.contains my_model.marker root = true) ->
  my_model.search ext dir es = [].
Proof.
  intros H. unfold my_model.search. apply flat_map_all_nil.
  intros [[root ds] fls] Hitem. unfold my_model.visit.
  destruct (Py.contains my_model.marker root) eqn:Hm; [reflexivity|].
  rewrite filter_all_false; [reflexivity|].
  intros file Hin. destruct (Py.endswith file ext) eqn:Hext; [|reflexivity].
  rewrite (H _ _ _ _ Hitem Hin Hext) in Hm. discriminate.
Qed.

(** ** Paths below an excluded directory *)

(** Induction over trees, with the hypothesis for every entry of a
    directory. *)
Lemma node_tree_ind (P : node -> Prop) :
  P File -> P Locked ->
  (forall es, Forall (fun e => P (snd e)) es -> P (Dir es)) ->
  forall n, P n.
Proof.
  intros HF HL HD. fix IH 1. intros [|es|]; [exact HF| |exact HL].
  apply HD. induction es as [|[name child] es IHes]; constructor.
  - apply IH.
  - exact IHes.
Qed.

Lemma append_assoc (a b c : string) : (a +:+ b) +:+ c = a +:+ (b +:+ c).
Proof.
  induction a as [|x a IH]; [reflexivity|].
  rewrite !append_cons, IH. reflexivity.
Qed.

Lemma append_empty_r (a : string) : a +:+ "" = a.
Proof.
  induction a as [|x a IH]; [reflexivity|]. rewrite append_cons, IH. reflexivity.
Qed.

(** Every directory that [os.walk] reaches from [top] has a path that starts
    with [top]. *)
Lemma walk_roots_extend (n : node) :
  forall top item,
    plain_names n = true -> In item (walk top n) ->
    exists suffix, fst (fst item) = top +:+ suffix.
Proof.
  induction n as [| | es IH] using node_tree_ind; intros top item Hnames Hin;
    try contradiction.
  simpl in Hin. destruct Hin as [<-|Hin].
  - exists "". simpl. symmetry. apply append_empty_r.
  - apply in_flat_map in Hin as ([name child] & He & Hitem).
    simpl in Hnames. rewrite forallb_forall in Hnames.
    pose proof (Hnames _ He) as Hn. apply andb_true_iff in Hn as [Hn Hc].
    apply negb_true_iff in Hn.
    rewrite Forall_forall in IH.
    destruct (IH (name, child) (proj2 (list_elem_of_In _ _) He)
                (posixpath.join top name) item Hc Hitem) as [s2 Hs2].
    destruct (join_extends top name Hn) as [s1 Hs1].
    exists (s1 +:+ s2). rewrite Hs2, Hs1. apply append_assoc.
Qed.

(** The search below a directory whose path contains the marker finds
    nothing, however deep the files lie. *)
Lemma excluded_subtree_finds_nothing (ext top : string) (es : entries) :
  plain_names (Dir es) = true ->
  Py.contains my_model.marker top = true ->
  my_model.search ext top es = [].
Proof.
  intros Hnames Htop. apply search_all_excluded.
  intros root ds fls file Hitem _ _.
  destruct (walk_roots_extend (Dir es) top (root, ds, fls) Hnames Hitem)
    as [suffix Hs].
  simpl in Hs. subst root. apply contains_app, Htop.
Qed.

(** C1, as amended: a file that lies in a directory whose path contains
    ['LSTM_outside_example'] is never selected as the model file or the data
    file; when all the files of a kind lie in such directories the search
    raises [FileNotFoundError] instead of selecting one of them. *)
Theorem excluded_directories_never_selected (dir : string) (es : entries) :
  (forall p, my_model.model_path dir es = Return p ->
     exists root ds fls file,
       In (root, ds, fls) (walk dir (Dir es))
       /\ Py.contains my_model.marker root = false
       /\ In file fls /\ Py.endswith file ".h5" = true
       /\ p = posixpath.join root file)
  /\ (forall p, my_model.data_path dir es = Return p ->
     exists root ds fls file,
       In (root, ds, fls) (walk dir (Dir es))
       /\ Py.contains my_model.marker root = false
       /\ In file fls /\ Py.endswith file ".csv" = true
       /\ p = posixpath.join root file)
  /\ ((forall root ds fls file,
         In (root, ds, fls) (walk dir (Dir es)) -> In file fls ->
         Py.endswith file ".h5" = true ->
         Py.contains my_model.marker root = true) ->
      my_model.model_path dir es
      = Raise (mk_exn FileNotFoundError (my_model.no_model_msg dir)))
  /\ ((forall root ds fls file,
         In (root, ds, fls) (walk dir (Dir es)) -> In file fls ->
         Py.endswith file ".csv" = true ->
         Py.contains my_model.marker root = true) ->
      my_model.data_path dir es
      = Raise (mk_exn FileNotFoundError (my_model.no_data_msg dir))).
Proof.
  unfold my_model.model_path, my_model.data_path, my_model.model_files,
    my_model.csv_files.
  repeat split.
  - intros p Hp. apply first_or_raise_return in Hp.
    apply search_elem. apply list_elem_of_In.
    apply list_elem_of_lookup. eauto.
  - intros p Hp. apply first_or_raise_return in Hp.
    apply search_elem. apply list_elem_of_In.
    apply list_elem_of_lookup. eauto.
  - intros H. rewrite (search_all_excluded _ _ _ H). reflexivity.
  - intros H. rewrite (search_all_excluded _ _ _ H). reflexivity.
Qed.

(** The claim as stated fails: a model file in the package directory itself
    whose own name mentions the marker is selected. *)
Lemma marker_in_file_name_is_selected :
  my_model.model_path Samples.root Samples.es_marker_in_file_name
  = Return "/repo/miner_model/LSTM_outside_example_retrained.h5"
  /\ Py.contains my_model.marker
       "/repo/miner_model/LSTM_outside_example_retrained.h5" = true.
Proof. split; reflexivity. Qed.

(** ** Selection across calls *)

(** A second call of [load_student_model] selects the file the first call
    selected, as long as the tree is reported as it was, entry for entry:
    the search path and the log records that the first call added play no
    part. *)
Lemma second_run_selects_same {G : Type} (current_dir : string)
    (spec_from_file_location : string -> string -> option ModuleSpec)
    (exec_module :
       ModuleSpec -> pymodule -> world G -> outcome pymodule * world G)
    (format_exc : exn -> string) (w : world G) :
  let w' :=
    snd (model_loader.load_student_model current_dir spec_from_file_location
           exec_module format_exc w) in
  fs w' = fs w ->
  fst (model_loader.discover current_dir w')
  = fst (model_loader.discover current_dir w).
Proof.
  intros w' Hfs.
  unfold model_loader.discover, model_loader.path_exists,
    model_loader.listdir.
  rewrite Hfs.
  destruct (lookup_entry "student_models" (fs w)) as [[|es|]|]; simpl;
    try reflexivity.
  destruct (model_loader.scan (names es)); reflexivity.
Qed.

(** The selection follows the enumeration order: the same entries reported
    in another order give another selection. *)
Lemma selection_follows_enumeration_order :
  let d1 := [("a.py", File); ("b.py", File)] in
  let d2 := [("b.py", File); ("a.py", File)] in
  d1 ≡ₚ d2
  /\ model_loader.scan (names d1) !! 0 = Some "a.py"
  /\ model_loader.scan (names d2) !! 0 = Some "b.py".
Proof.
  cbv zeta. split; [apply perm_swap|]. split; reflexivity.
Qed.

(** ** [predict] *)

Section PredictFacts.

Variables keras_model dataframe : Type.
Variable inference : keras_model -> dataframe -> string -> nat -> option Q.
Variable half_width : Q.
Variable z : Q.
Variable model : keras_model.
Variable data : dataframe.

Local Abbreviation predict :=
  (my_model.predict keras_model dataframe inference half_width z model data).

(** C3: for a timestamp at which the model yields a forecast, and a
    non-negative half-width, [predict] returns the forecast together with an
    interval [(low, high)] such that [low <= forecast <= high]. *)
Theorem predict_interval_brackets_forecast (timestamp : string) (p : Q) :
  (0 <= half_width)%Q ->
  inference model data timestamp 12 = Some p ->
  exists low high,
    predict timestamp = Return (p, (low, high))
    /\ (low <= p)%Q /\ (p <= high)%Q.
Proof.
  intros Hh Hinf. exists (p - half_width)%Q, (p + half_width)%Q.
  unfold my_model.predict, my_model.predict_1hour_ahead. rewrite Hinf.
  split; [reflexivity|]. split; lra.
Qed.

End PredictFacts.

(** ** The properties at the sample inputs *)

Section AtSamples.

Import Samples.

Local Abbreviation load exec w :=
  (model_loader.load_student_model root source_spec exec no_traceback w).

(** Loading [my_model.py] when the only [.h5] file lies in the example
    folder: its search raises [FileNotFoundError], and the loader turns that
    into an error record and [None]. *)
Example only_example_folder_no_adapter :
  fst (load exec_my_model n_only_example) = Return None
  /\ logs (snd (load exec_my_model n_only_example))
     = [(INFO, "Found student model: my_model.py");
        (ERROR, "Failed to load model from my_model.py: "
                  +:+ my_model.no_model_msg root);
        (DEBUG, "Traceback (most recent call last):")].
Proof. split; reflexivity. Qed.

(** [student_models] exists but is a regular file: [os.listdir] raises
    outside the [try] block. *)
Example not_a_directory_propagates :
  exists e,
    exn_cls e = NotADirectoryError
    /\ load exec_defines_predict w_not_a_dir = (Raise e, w_not_a_dir).
Proof. eexists. split; [|reflexivity]. reflexivity. Qed.

Example default_tree_loads :
  fst (load exec_my_model n_default) = Return (Some (FunctionBasedModel (PyRef 4)))
  /\ sys_path (snd (load exec_my_model n_default)) = ["/repo/miner_model"].
Proof. split; reflexivity. Qed.

Lemma excluded_directories_witness :
  my_model.model_path root es_only_example
  = Raise (mk_exn FileNotFoundError (my_model.no_model_msg root))
  /\ my_model.data_path root es_only_example
     = Raise (mk_exn FileNotFoundError (my_model.no_data_msg root)).
Proof.
  destruct (excluded_directories_never_selected root es_only_example)
    as (_ & _ & Hm & Hd).
  split; [apply Hm | apply Hd]; intros r ds fls file Hitem Hin Hext;
    simpl in Hitem;
    repeat (destruct Hitem as [[= <- <- <-]|Hitem]; [|]);
    try contradiction; try reflexivity;
    simpl in Hin; repeat (destruct Hin as [<-|Hin]; [|]);
    try contradiction; try discriminate.
Defined.

Lemma predict_interval_witness :
  (0 <= 1 # 100)%Q
  /\ exists low high,
       my_model.predict unit unit one_point (1 # 100) (196 # 100) tt tt
         "2024-01-15T10:30:00+00:00"
       = Return (29 # 4, (low, high))
       /\ (low <= 29 # 4)%Q /\ (29 # 4 <= high)%Q.
Proof.
  split; [discriminate|].
  apply (predict_interval_brackets_forecast unit unit one_point (1 # 100)
           (196 # 100) tt tt "2024-01-15T10:30:00+00:00" (29 # 4)).
  - discriminate.
  - reflexivity.
Defined.

Lemma missing_predict_witness :
  exists w',
    load exec_empty w_default
    = (Return None,
       log ERROR (model_loader.no_predict_msg "my_model.py") w').
Proof.
  eexists.
  eapply (missing_predict_returns_none root source_spec exec_empty
            no_traceback w_default); reflexivity.
Defined.

Lemma adapter_or_none_witness :
  (lookup_entry "student_models" (fs w_default) = None
   \/ exists es, lookup_entry "student_models" (fs w_default) = Some (Dir es))
  /\ fst (load exec_import_error w_default) = Return None.
Proof.
  assert (Hdir : lookup_entry "student_models" (fs w_default) = None
                 \/ exists es, lookup_entry "student_models" (fs w_default)
                               = Some (Dir es))
    by (right; eexists; reflexivity).
  split; [exact Hdir|].
  destruct (load_returns_adapter_or_none root source_spec exec_import_error
              no_traceback w_default Hdir) as [H|H].
  - intros spec m w1 e w2 [= <- _]. reflexivity.
  - reflexivity.
  - reflexivity.
Defined.

(** The claim as stated fails: [SystemExit] raised by the module passes
    through [except Exception] and leaves [load_student_model]. *)
Lemma sys_exit_propagates :
  fst (load exec_sys_exit w_default) = Raise (mk_exn SystemExit "1")
  /\ ~ exists r, fst (load exec_sys_exit w_default) = Return r.
Proof. split; [reflexivity|]. intros [r [=]]. Qed.

Lemma no_candidate_witness :
  load exec_defines_predict w_no_candidate
  = (Return None, log ERROR model_loader.no_model_msg w_no_candidate).
Proof.
  apply (no_candidate_no_adapter root source_spec exec_defines_predict
           no_traceback w_no_candidate
           [("__init__.py", File); ("helpers.py", File); ("README.md", File)]);
    reflexivity.
Defined.

Lemma reserved_names_witness :
  ("__init__.py" ∉
     model_loader.scan ["__init__.py"; "helpers.py"; "my_model.py"])
  /\ ("helpers.py" ∉
     model_loader.scan ["__init__.py"; "helpers.py"; "my_model.py"]).
Proof.
  apply (reserved_names_never_candidates root w_default).
Defined.

Lemma sys_path_effect_witness :
  sys_path (snd (load exec_import_error w_default)) = ["/repo/miner_model"]
  /\ same_but_logs w_no_dir (snd (load exec_defines_predict w_no_dir)).
Proof.
  split.
  - destruct (loader_effect_on_sys_path root source_spec exec_import_error
                no_traceback w_default)
      as [[_ H]|(es & f & rest & spec & r & w2 & _ & _ & _ & _ & H)].
    + reflexivity.
    + reflexivity.
  - destruct (loader_effect_on_sys_path root source_spec exec_defines_predict
                no_traceback w_no_dir)
      as [[_ H]|(es & f & rest & spec & r & w2 & [=] & _)].
    exact H.
Defined.

(** The claim as stated fails: with no [student_models] directory the call
    returns before the insertion, and [sys.path] stays without
    [parent_dir]. *)
Lemma early_return_leaves_sys_path :
  (model_loader.parent_dir root ∉ sys_path w_no_dir)
  /\ sys_path (snd (load exec_defines_predict w_no_dir)) = sys_path w_no_dir
  /\ (model_loader.parent_dir root
      ∉ sys_path (snd (load exec_defines_predict w_no_dir))).
Proof.
  split; [apply not_elem_of_nil|]. split; [reflexivity|apply not_elem_of_nil].
Qed.

Lemma first_available_witness :
  exists models,
    model_loader.list_available_models root w_default = Return models
    /\ fst (model_loader.discover root w_default) = Return (head models).
Proof.
  destruct (load_selects_first_available root source_spec exec_defines_predict
              no_traceback w_default
              [("__init__.py", File); ("helpers.py", File);
               ("my_model.py", File); ("other.py", File)] eq_refl)
    as (models & Hl & Hd & _).
  exists models. split; [exact Hl | exact Hd].
Defined.

End AtSamples.

(** * Further properties of the loader and of [my_model.py] *)

(** ** Suffixes and stems *)

Lemma endswith_unfold (s suf : string) :
  Py.endswith s suf
  = String.eqb s suf ||
    match s with EmptyString => false | String _ s' => Py.endswith s' suf end.
Proof. destruct s; reflexivity. Qed.

(** [s.endswith(suf)] holds exactly when [s] is some text followed by
    [suf]. *)
Lemma endswith_iff (s suf : string) :
  Py.endswith s suf = true <-> exists pre, s = pre +:+ suf.
Proof.
  split.
  - induction s as [|c s IH]; rewrite endswith_unfold, orb_true_iff.
    + intros [H|H]; [|discriminate].
      apply String.eqb_eq in H as <-. exists "". reflexivity.
    + intros [H|H].
      * apply String.eqb_eq in H as <-. exists "". reflexivity.
      * destruct (IH H) as [pre ->]. exists (String c pre). reflexivity.
  - intros [pre ->]. induction pre as [|c pre IH].
    + rewrite append_nil, endswith_unfold, String.eqb_refl. reflexivity.
    + rewrite append_cons, endswith_cons, IH. apply orb_true_r.
Qed.

Lemma endswith_app (a b suf : string) :
  Py.endswith b suf = true -> Py.endswith (a +:+ b) suf = true.
Proof.
  rewrite !endswith_iff. intros [pre ->]. exists (a +:+ pre).
  symmetry. apply append_assoc.
Qed.

Lemma length_append (a b : string) :
  String.length (a +:+ b) = String.length a + String.length b.
Proof.
  induction a as [|c a IH]; [reflexivity|].
  rewrite append_cons. simpl. rewrite IH. reflexivity.
Qed.

Lemma substring_append (a b : string) :
  String.substring 0 (String.length a) (a +:+ b) = a.
Proof.
  induction a as [|c a IH].
  - rewrite append_nil. destruct b; reflexivity.
  - rewrite append_cons. simpl. rewrite IH. reflexivity.
Qed.

Lemma drop_last3_stem (stem : string) :
  Py.drop_last3 (stem +:+ ".py") = stem.
Proof.
  unfold Py.drop_last3. rewrite length_append. simpl String.length.
  replace (String.length stem + 3 - 3) with (String.length stem) by lia.
  apply substring_append.
Qed.

(** X1: a file name is a candidate exactly when it is a stem followed by
    ['.py'] and is neither reserved name; the module name [model_file[:-3]]
    is then that stem, so that module name plus ['.py'] gives the file name
    back. *)
Theorem candidate_stem_round_trip (file : string) :
  (model_loader.is_candidate file = true <->
   (exists stem, file = stem +:+ ".py")
   /\ file <> "__init__.py" /\ file <> "helpers.py")
  /\ (model_loader.is_candidate file = true ->
      Py.drop_last3 file +:+ ".py" = file
      /\ String.length (Py.drop_last3 file) + 3 = String.length file).
Proof.
  assert (Hiff : model_loader.is_candidate file = true <->
                 (exists stem, file = stem +:+ ".py")
                 /\ file <> "__init__.py" /\ file <> "helpers.py").
  { rewrite is_candidate_spec, endswith_iff.
    unfold model_loader.excluded_files. split.
    - intros [Hs Hex]. split; [exact Hs|].
      split; intros ->; apply Hex.
      + apply list_elem_of_here.
      + apply list_elem_of_further, list_elem_of_here.
    - intros (Hs & H1 & H2). split; [exact Hs|].
      rewrite !list_elem_of_In. simpl. intros [<-|[<-|[]]]; congruence. }
  split; [exact Hiff|].
  intros Hc. apply Hiff in Hc as ([stem ->] & _ & _).
  rewrite drop_last3_stem. split; [reflexivity|].
  rewrite length_append. reflexivity.
Qed.

(** ** The paths through [load_student_model] *)

Section LoaderPaths.

Context {G : Type}.
Variable current_dir : string.
Variable spec_from_file_location : string -> string -> option ModuleSpec.
Variable exec_module :
  ModuleSpec -> pymodule -> world G -> outcome pymodule * world G.
Variable format_exc : exn -> string.

Local Abbreviation list_available_models :=
  (model_loader.list_available_models (G:=G) current_dir).
Local Abbreviation load_student_model :=
  (model_loader.load_student_model current_dir spec_from_file_location
     exec_module format_exc).
Local Abbreviation student_models_dir :=
  (model_loader.student_models_dir current_dir).
Local Abbreviation add_parent_dir :=
  (model_loader.add_parent_dir (G:=G) current_dir).
Local Abbreviation parent_dir := (model_loader.parent_dir current_dir).
Local Abbreviation reaches_exec :=
  (load_path.reaches_exec (G:=G) current_dir spec_from_file_location).
Local Abbreviation found model_file w :=
  (log INFO ("Found student model: " +:+ model_file) w).
Local Abbreviation name_of model_file :=
  ("miner_model.student_models." +:+ Py.drop_last3 model_file).
Local Abbreviation path_of model_file :=
  (posixpath.join student_models_dir model_file).

(** Once a module is executed, the result of the call is read off the
    result of the execution. *)
Lemma load_student_model_reached
    (w : world G) (es : entries) (model_file : string) (rest : list string)
    (spec : ModuleSpec) (r : outcome pymodule) (w2 : world G) :
  lookup_entry "student_models" (fs w) = Some (Dir es) ->
  model_loader.scan (names es) = model_file :: rest ->
  spec_from_file_location (name_of model_file) (path_of model_file)
  = Some spec ->
  spec_has_loader spec = true ->
  exec_module spec (model_loader.new_module spec (Py.drop_last3 model_file))
    (add_parent_dir (found model_file w)) = (r, w2) ->
  load_student_model w
  = match r with
    | Return module =>
        match mod_dict module !! "predict" with
        | Some predict =>
            (Return (Some (FunctionBasedModel predict)),
             log SUCCESS ("Successfully loaded model from " +:+ model_file) w2)
        | None =>
            (Return None, log ERROR (model_loader.no_predict_msg model_file) w2)
        end
    | Raise e =>
        if is_Exception (exn_cls e) then
          (Return None,
           log DEBUG (format_exc e)
             (log ERROR
                ("Failed to load model from " +:+ model_file +:+ ": "
                   +:+ exn_str e) w2))
        else (Raise e, w2)
    end.
Proof.
  intros Hdir Hscan Hspec Hloader Hexec.
  rewrite (load_student_model_directory _ _ _ _ _ _ Hdir), Hscan.
  destruct (load_file_cases current_dir spec_from_file_location exec_module
              format_exc model_file (found model_file w))
    as [[[Hn|(sp & Hs & Hl)] _]|(sp & r' & w2' & Hs & Hl & He & Hres)].
  - rewrite Hspec in Hn. discriminate.
  - rewrite Hspec in Hs. injection Hs as <-. congruence.
  - rewrite Hspec in Hs. injection Hs as <-.
    rewrite Hexec in He. injection He as <- <-.
    destruct r as [module|e].
    + destruct (mod_dict module !! "predict"); exact Hres.
    + destruct (is_Exception (exn_cls e)); exact Hres.
Qed.

(** X2: an exception raised while the module executes is turned into
    [None] plus an error record naming the file and the exception and a
    debug record with the traceback when it derives from [Exception]; any
    other exception leaves the call, and nothing is logged for it. *)
Theorem exception_from_module
    (w : world G) (es : entries) (model_file : string) (rest : list string)
    (spec : ModuleSpec) (e : exn) (w2 : world G) :
  lookup_entry "student_models" (fs w) = Some (Dir es) ->
  model_loader.scan (names es) = model_file :: rest ->
  spec_from_file_location (name_of model_file) (path_of model_file)
  = Some spec ->
  spec_has_loader spec = true ->
  exec_module spec (model_loader.new_module spec (Py.drop_last3 model_file))
    (add_parent_dir (found model_file w)) = (Raise e, w2) ->
  (is_Exception (exn_cls e) = true ->
   load_student_model w
   = (Return None,
      log DEBUG (format_exc e)
        (log ERROR
           ("Failed to load model from " +:+ model_file +:+ ": "
              +:+ exn_str e) w2)))
  /\ (is_Exception (exn_cls e) = false ->
      load_student_model w = (Raise e, w2)).
Proof.
  intros Hdir Hscan Hspec Hloader Hexec.
  rewrite (load_student_model_reached _ _ _ _ _ _ _ Hdir Hscan Hspec Hloader
             Hexec).
  split; intros ->; reflexivity.
Qed.

(** X3: when the module executes to the end and has a [predict] attribute,
    the call returns the [FunctionBasedModel] around exactly that attribute
    and logs the success, in the state the module left. *)
Theorem predict_is_wrapped
    (w : world G) (es : entries) (model_file : string) (rest : list string)
    (spec : ModuleSpec) (module : pymodule) (predict : pyobj) (w2 : world G) :
  lookup_entry "student_models" (fs w) = Some (Dir es) ->
  model_loader.scan (names es) = model_file :: rest ->
  spec_from_file_location (name_of model_file) (path_of model_file)
  = Some spec ->
  spec_has_loader spec = true ->
  exec_module spec (model_loader.new_module spec (Py.drop_last3 model_file))
    (add_parent_dir (found model_file w)) = (Return module, w2) ->
  mod_dict module !! "predict" = Some predict ->
  load_student_model w
  = (Return (Some (FunctionBasedModel predict)),
     log SUCCESS ("Successfully loaded model from " +:+ model_file) w2).
Proof.
  intros Hdir Hscan Hspec Hloader Hexec Hp.
  rewrite (load_student_model_reached _ _ _ _ _ _ _ Hdir Hscan Hspec Hloader
             Hexec), Hp.
  reflexivity.
Qed.

(** X4: when no spec can be created for the selected file, or the spec has
    no loader, the call logs that and returns [None] without executing
    anything: [sys.path] is not touched. *)
Theorem spec_failure_returns_none
    (w : world G) (es : entries) (model_file : string) (rest : list string) :
  lookup_entry "student_models" (fs w) = Some (Dir es) ->
  model_loader.scan (names es) = model_file :: rest ->
  (spec_from_file_location (name_of model_file) (path_of model_file) = None
   \/ exists spec,
        spec_from_file_location (name_of model_file) (path_of model_file)
        = Some spec /\ spec_has_loader spec = false) ->
  load_student_model w
  = (Return None,
     log ERROR ("Could not create spec for " +:+ model_file)
       (found model_file w))
  /\ sys_path (snd (load_student_model w)) = sys_path w.
Proof.
  intros Hdir Hscan Hspec.
  assert (H : load_student_model w
              = (Return None,
                 log ERROR ("Could not create spec for " +:+ model_file)
                   (found model_file w))).
  { rewrite (load_student_model_directory _ _ _ _ _ _ Hdir), Hscan.
    destruct (load_file_cases current_dir spec_from_file_location exec_module
                format_exc model_file (found model_file w))
      as [[_ H]|(sp & r & w2 & Hs & Hl & _)]; [exact H|].
    destruct Hspec as [Hn|(sp' & Hs' & Hl')]; congruence. }
  rewrite H. split; reflexivity.
Qed.

End LoaderPaths.

(** ** What a result of [load_student_model] tells about the call *)

Section LoaderInversions.

Context {G : Type}.
Variable current_dir : string.
Variable spec_from_file_location : string -> string -> option ModuleSpec.
Variable exec_module :
  ModuleSpec -> pymodule -> world G -> outcome pymodule * world G.
Variable format_exc : exn -> string.

Local Abbreviation list_available_models :=
  (model_loader.list_available_models (G:=G) current_dir).
Local Abbreviation load_student_model :=
  (model_loader.load_student_model current_dir spec_from_file_location
     exec_module format_exc).
Local Abbreviation student_models_dir :=
  (model_loader.student_models_dir current_dir).
Local Abbreviation add_parent_dir :=
  (model_loader.add_parent_dir (G:=G) current_dir).
Local Abbreviation found model_file w :=
  (log INFO ("Found student model: " +:+ model_file) w).
Local Abbreviation name_of model_file :=
  ("miner_model.student_models." +:+ Py.drop_last3 model_file).
Local Abbreviation path_of model_file :=
  (posixpath.join student_models_dir model_file).

(** X5: an adapter is returned only after a module was executed to the end
    and left a [predict] attribute, which is what the adapter wraps; the
    file loaded is the first one [list_available_models] reports. *)
Theorem adapter_comes_from_first_listed
    (w : world G) (model : PredictionModel) (w' : world G) :
  load_student_model w = (Return (Some model), w') ->
  exists model_file rest spec module w2 predict,
    list_available_models w = Return (model_file :: rest)
    /\ spec_from_file_location (name_of model_file) (path_of model_file)
       = Some spec
    /\ exec_module spec
         (model_loader.new_module spec (Py.drop_last3 model_file))
         (add_parent_dir (found model_file w)) = (Return module, w2)
    /\ mod_dict module !! "predict" = Some predict
    /\ model = FunctionBasedModel predict
    /\ w' = log SUCCESS ("Successfully loaded model from " +:+ model_file) w2.
Proof.
  intros Hload.
  destruct (lookup_entry "student_models" (fs w)) as [[|es|]|] eqn:Hdir.
  - destruct (discover_not_listable current_dir w File Hdir) as (e & _ & Hd);
      [discriminate|].
    unfold model_loader.load_student_model in Hload. rewrite Hd in Hload.
    discriminate.
  - rewrite (load_student_model_directory _ _ _ _ _ _ Hdir) in Hload.
    destruct (model_loader.scan (names es)) as [|f rest] eqn:Hscan;
      [discriminate|].
    destruct (load_file_cases current_dir spec_from_file_location exec_module
                format_exc f (found f w))
      as [[_ H]|(sp & r & w2 & Hs & Hl & He & Hres)].
    { rewrite H in Hload. discriminate. }
    destruct r as [module|e].
    + destruct (mod_dict module !! "predict") as [p|] eqn:Hp;
        rewrite Hres in Hload; [|discriminate].
      injection Hload as <- <-.
      exists f, rest, sp, module, w2, p.
      rewrite (list_available_models_directory _ _ _ Hdir), Hscan.
      repeat split; auto.
    + destruct (is_Exception (exn_cls e)); rewrite Hres in Hload; discriminate.
  - destruct (discover_not_listable current_dir w Locked Hdir) as (e & _ & Hd);
      [discriminate|].
    unfold model_loader.load_student_model in Hload. rewrite Hd in Hload.
    discriminate.
  - unfold model_loader.load_student_model in Hload.
    rewrite (discover_missing _ _ Hdir) in Hload. discriminate.
Qed.

(** X6: an exception that derives from [Exception] leaves
    [load_student_model] only when [os.listdir] raised it; the same
    exception then leaves [list_available_models], and the call has changed
    nothing and logged nothing. *)
Theorem ordinary_exception_means_listing_failed
    (w : world G) (e : exn) (w' : world G) :
  (load_student_model w = (Raise e, w') ->
   is_Exception (exn_cls e) = true ->
   list_available_models w = Raise e /\ w' = w)
  /\ (list_available_models w = Raise e ->
      load_student_model w = (Raise e, w)).
Proof.
  split.
  - intros Hload Hexn.
    destruct (lookup_entry "student_models" (fs w)) as [[|es|]|] eqn:Hdir.
    + unfold model_loader.load_student_model, model_loader.discover,
        model_loader.list_available_models, model_loader.path_exists,
        model_loader.listdir in *.
      rewrite Hdir in *. simpl in *. injection Hload as <- <-. auto.
    + rewrite (load_student_model_directory _ _ _ _ _ _ Hdir) in Hload.
      destruct (model_loader.scan (names es)) as [|f rest]; [discriminate|].
      destruct (load_file_cases current_dir spec_from_file_location
                  exec_module format_exc f (found f w))
        as [[_ H]|(sp & r & w2 & Hs & Hl & He & Hres)].
      { rewrite H in Hload. discriminate. }
      destruct r as [module|e'].
      * destruct (mod_dict module !! "predict");
          rewrite Hres in Hload; discriminate.
      * destruct (is_Exception (exn_cls e')) eqn:Hc;
          rewrite Hres in Hload; [discriminate|].
        injection Hload as <- <-. congruence.
    + unfold model_loader.load_student_model, model_loader.discover,
        model_loader.list_available_models, model_loader.path_exists,
        model_loader.listdir in *.
      rewrite Hdir in *. simpl in *. injection Hload as <- <-. auto.
    + unfold model_loader.load_student_model in Hload.
      rewrite (discover_missing _ _ Hdir) in Hload. discriminate.
  - unfold model_loader.load_student_model, model_loader.discover,
      model_loader.list_available_models, model_loader.path_exists,
      model_loader.listdir.
    destruct (lookup_entry "student_models" (fs w)) as [[|es|]|]; simpl;
      try discriminate.
    + intros [= <-]. reflexivity.
    + intros [= <-]. reflexivity.
Qed.

(** X7: [list_available_models] answers with the same empty list whether the
    directory is missing or merely holds no candidate, while
    [load_student_model] logs a different error in the two cases. *)
Theorem missing_and_empty_directory (w1 w2 : world G) (es : entries) :
  lookup_entry "student_models" (fs w1) = None ->
  lookup_entry "student_models" (fs w2) = Some (Dir es) ->
  model_loader.scan (names es) = [] ->
  list_available_models w1 = Return []
  /\ list_available_models w2 = Return []
  /\ load_student_model w1
     = (Return None, log ERROR (model_loader.dir_not_found_msg current_dir) w1)
  /\ load_student_model w2
     = (Return None, log ERROR model_loader.no_model_msg w2)
  /\ model_loader.dir_not_found_msg current_dir <> model_loader.no_model_msg.
Proof.
  intros H1 H2 Hscan. repeat split.
  - unfold model_loader.list_available_models, model_loader.path_exists.
    rewrite H1. reflexivity.
  - rewrite (list_available_models_directory _ _ _ H2), Hscan. reflexivity.
  - unfold model_loader.load_student_model.
    rewrite (discover_missing _ _ H1). reflexivity.
  - rewrite (load_student_model_directory _ _ _ _ _ _ H2), Hscan. reflexivity.
  - discriminate.
Qed.

End LoaderInversions.

(** ** The listing, the search path and repeated calls *)

Lemma filter_sublist {A} (P : A -> bool) (l : list A) :
  List.filter P l `sublist_of` l.
Proof.
  induction l as [|x l IH]; simpl; [constructor|].
  destruct (P x); [apply sublist_skip | apply sublist_cons]; exact IH.
Qed.

Section LoaderState.

Context {G : Type}.
Variable current_dir : string.
Variable spec_from_file_location : string -> string -> option ModuleSpec.
Variable exec_module :
  ModuleSpec -> pymodule -> world G -> outcome pymodule * world G.
Variable format_exc : exn -> string.

Local Abbreviation list_available_models :=
  (model_loader.list_available_models (G:=G) current_dir).
Local Abbreviation load_student_model :=
  (model_loader.load_student_model current_dir spec_from_file_location
     exec_module format_exc).
Local Abbreviation student_models_dir :=
  (model_loader.student_models_dir current_dir).
Local Abbreviation add_parent_dir :=
  (model_loader.add_parent_dir (G:=G) current_dir).
Local Abbreviation parent_dir := (model_loader.parent_dir current_dir).
Local Abbreviation reaches_exec :=
  (load_path.reaches_exec (G:=G) current_dir spec_from_file_location).
Local Abbreviation found model_file w :=
  (log INFO ("Found student model: " +:+ model_file) w).
Local Abbreviation name_of model_file :=
  ("miner_model.student_models." +:+ Py.drop_last3 model_file).
Local Abbreviation path_of model_file :=
  (posixpath.join student_models_dir model_file).

(** X8: for an existing directory [list_available_models] returns exactly
    the names that [os.listdir] reports, end in ['.py'] and are not
    reserved, in the order of the listing and without repeating a name that
    the listing does not repeat. *)
Theorem listed_models_characterised (w : world G) (es : entries) :
  lookup_entry "student_models" (fs w) = Some (Dir es) ->
  exists models,
    list_available_models w = Return models
    /\ (forall file,
          file ∈ models <->
          file ∈ names es /\ (exists stem, file = stem +:+ ".py")
          /\ file <> "__init__.py" /\ file <> "helpers.py")
    /\ models `sublist_of` names es
    /\ (NoDup (names es) -> NoDup models).
Proof.
  intros Hdir. exists (model_loader.scan (names es)).
  split; [exact (list_available_models_directory _ _ _ Hdir)|].
  split; [|split].
  - intros file. rewrite elem_of_scan, is_candidate_spec, endswith_iff.
    unfold model_loader.excluded_files. split.
    + intros (Hin & Hs & Hex). repeat split; auto; intros ->; apply Hex.
      * apply list_elem_of_here.
      * apply list_elem_of_further, list_elem_of_here.
    + intros (Hin & Hs & H1 & H2). repeat split; auto.
      rewrite !list_elem_of_In. simpl. intros [<-|[<-|[]]]; congruence.
  - apply filter_sublist.
  - intros Hnd. exact (sublist_NoDup _ _ Hnd (filter_sublist _ _)).
Qed.


Lemma sys_path_insertion_idempotent_aux (w : world G) :
  sys_path (add_parent_dir w) = sys_path w
  \/ ((parent_dir ∉ sys_path w)
      /\ sys_path (add_parent_dir w) = parent_dir :: sys_path w).
Proof.
  unfold model_loader.add_parent_dir.
  destruct (Py.mem parent_dir (sys_path w)) eqn:Hm; [left; reflexivity|].
  right. apply mem_false in Hm. split; [exact Hm|reflexivity].
Qed.

(** Whether the call executes a module decides what it leaves behind. *)
Lemma load_by_reaches (w : world G) :
  if reaches_exec w then
    exists model_file spec r w2,
      exec_module spec
        (model_loader.new_module spec (Py.drop_last3 model_file))
        (add_parent_dir (found model_file w)) = (r, w2)
      /\ same_but_logs w2 (snd (load_student_model w))
  else same_but_logs w (snd (load_student_model w)).
Proof.
  unfold load_path.reaches_exec.
  destruct (lookup_entry "student_models" (fs w)) as [[|es|]|] eqn:Hdir.
  - destruct (discover_not_listable current_dir w File Hdir) as (e & _ & Hd);
      [discriminate|].
    unfold model_loader.load_student_model. rewrite Hd. repeat split.
  - rewrite (load_student_model_directory _ _ _ _ _ _ Hdir).
    destruct (model_loader.scan (names es)) as [|f rest]; [repeat split|].
    destruct (load_file_cases current_dir spec_from_file_location exec_module
                format_exc f (found f w))
      as [[[Hn|(sp & Hs & Hl)] H]|(sp & r & w2 & Hs & Hl & He & Hres)].
    + rewrite Hn, H. repeat split.
    + rewrite Hs, Hl, H. repeat split.
    + rewrite Hs, Hl. exists f, sp, r, w2. split; [exact He|].
      destruct r as [module|e].
      * destruct (mod_dict module !! "predict"); rewrite Hres; repeat split.
      * destruct (is_Exception (exn_cls e)); rewrite Hres; repeat split.
  - destruct (discover_not_listable current_dir w Locked Hdir) as (e & _ & Hd);
      [discriminate|].
    unfold model_loader.load_student_model. rewrite Hd. repeat split.
  - unfold model_loader.load_student_model.
    rewrite (discover_missing _ _ Hdir). repeat split.
Qed.

Lemma reaches_exec_fs (w w' : world G) :
  fs w' = fs w -> reaches_exec w' = reaches_exec w.
Proof. intros H. unfold load_path.reaches_exec. rewrite H. reflexivity. Qed.

(** X10: when the executed module leaves [sys.path] alone, a call extends
    [sys.path] by at most [parent_dir] in front, and a second call does not
    change it any more. *)
Theorem second_call_keeps_sys_path (w : world G) :
  (forall spec m w0, sys_path (snd (exec_module spec m w0)) = sys_path w0) ->
  let w1 := snd (load_student_model w) in
  (sys_path w1 = sys_path w
   \/ ((parent_dir ∉ sys_path w) /\ sys_path w1 = parent_dir :: sys_path w))
  /\ sys_path (snd (load_student_model w1)) = sys_path w1.
Proof.
  intros Hexec w1.
  assert (Hone : forall w0 : world G,
             sys_path (snd (load_student_model w0))
             = if reaches_exec w0 then sys_path (add_parent_dir w0)
               else sys_path w0).
  { intros w0. pose proof (load_by_reaches w0) as H.
    destruct (reaches_exec w0).
    - destruct H as (f & sp & r & w2 & He & _ & Hp & _).
      rewrite Hp.
      pose proof (Hexec sp (model_loader.new_module sp (Py.drop_last3 f))
                    (add_parent_dir (found f w0))) as Hs.
      rewrite He in Hs. simpl in Hs. rewrite Hs.
      unfold model_loader.add_parent_dir. simpl.
      destruct (Py.mem parent_dir (sys_path w0)); reflexivity.
    - destruct H as (_ & Hp & _). exact Hp. }
  destruct (sys_path_insertion_idempotent_aux w) as [Hsame|[Hnin Hnew]].
  - split.
    + left. subst w1. rewrite Hone, Hsame.
      destruct (reaches_exec w); reflexivity.
    + rewrite Hone. destruct (reaches_exec w1) eqn:Hr1; [|reflexivity].
      pose proof (load_by_reaches w) as H. subst w1.
      destruct (reaches_exec w) eqn:Hr.
      * assert (Hin : parent_dir ∈ sys_path (snd (load_student_model w))).
        { rewrite Hone, Hr.
          apply (add_parent_dir_effect current_dir w). }
        apply (add_parent_dir_effect current_dir) in Hin. rewrite Hin.
        reflexivity.
      * destruct H as (Hfs & _).
        rewrite (reaches_exec_fs _ _ Hfs), Hr in Hr1. discriminate.
  - pose proof (load_by_reaches w) as H. subst w1.
    destruct (reaches_exec w) eqn:Hr.
    + assert (Hin : parent_dir ∈ sys_path (snd (load_student_model w))).
      { rewrite Hone, Hr. apply (add_parent_dir_effect current_dir w). }
      split.
      * right. split; [exact Hnin|]. rewrite Hone, Hr. exact Hnew.
      * rewrite Hone.
        destruct (reaches_exec (snd (load_student_model w))); [|reflexivity].
        apply (add_parent_dir_effect current_dir) in Hin. rewrite Hin.
        reflexivity.
    + destruct H as (Hfs & Hp & _). split.
      * left. exact Hp.
      * rewrite Hone, (reaches_exec_fs _ _ Hfs), Hr. reflexivity.
Qed.

End LoaderState.

(** ** What the searches of [my_model.py] select *)

Lemma join_endswith (root file ext : string) :
  Py.endswith file ext = true ->
  Py.endswith (posixpath.join root file) ext = true.
Proof.
  intros H. unfold posixpath.join.
  destruct (Py.startswith file "/"); [exact H|].
  destruct (String.eqb root "" || Py.endswith root "/").
  - apply endswith_app, H.
  - apply endswith_app, endswith_app, H.
Qed.

Lemma h5_csv_disjoint (p : string) :
  Py.endswith p ".h5" = true -> Py.endswith p ".csv" = true -> False.
Proof.
  induction p as [|c p IH]; [discriminate|].
  rewrite !endswith_cons, !orb_true_iff. intros [H1|H1] [H2|H2].
  - apply String.eqb_eq in H1. rewrite H1 in H2. discriminate.
  - apply String.eqb_eq in H1. injection H1 as -> ->. discriminate.
  - apply String.eqb_eq in H2. injection H2 as -> ->. discriminate.
  - exact (IH H1 H2).
Qed.

Lemma search_endswith (ext dir : string) (es : entries) (p : string) :
  In p (my_model.search ext dir es) -> Py.endswith p ext = true.
Proof.
  intros H. apply search_elem in H
    as (root & ds & fls & file & _ & _ & _ & Hext & ->).
  apply join_endswith, Hext.
Qed.

Lemma first_in {A} (l : list A) (x : A) : l !! 0 = Some x -> In x l.
Proof. destruct l; simpl; intros [= ->]. left. reflexivity. Qed.

(** X11: the selected model path ends in ['.h5'] and the selected data path
    in ['.csv']; the two are never the same file. *)
Theorem selected_paths_have_their_extension (dir : string) (es : entries) :
  (forall p, my_model.model_path dir es = Return p ->
             Py.endswith p ".h5" = true)
  /\ (forall p, my_model.data_path dir es = Return p ->
                Py.endswith p ".csv" = true)
  /\ (forall p q,
        my_model.model_path dir es = Return p ->
        my_model.data_path dir es = Return q -> p <> q).
Proof.
  assert (Hm : forall p, my_model.model_path dir es = Return p ->
                         Py.endswith p ".h5" = true).
  { intros p Hp. apply first_or_raise_return, first_in in Hp.
    exact (search_endswith _ _ _ _ Hp). }
  assert (Hd : forall p, my_model.data_path dir es = Return p ->
                         Py.endswith p ".csv" = true).
  { intros p Hp. apply first_or_raise_return, first_in in Hp.
    exact (search_endswith _ _ _ _ Hp). }
  split; [exact Hm|]. split; [exact Hd|].
  intros p q Hp Hq ->. exact (h5_csv_disjoint q (Hm _ Hp) (Hd _ Hq)).
Qed.

(** X12: the walk is top-down, so a file that lies directly in the searched
    directory wins over every file in a sub-directory: when the directory's
    own path does not contain the marker, the first of its own files with
    the extension is the one selected. *)
Theorem top_level_file_wins
    (dir : string) (es : entries) (file : string) (rest : list string) :
  Py.contains my_model.marker dir = false ->
  (List.filter (fun f => Py.endswith f ".h5") (filenames es) = file :: rest ->
   my_model.model_path dir es = Return (posixpath.join dir file))
  /\ (List.filter (fun f => Py.endswith f ".csv") (filenames es)
      = file :: rest ->
      my_model.data_path dir es = Return (posixpath.join dir file)).
Proof.
  intros Hdir.
  unfold my_model.model_path, my_model.data_path, my_model.model_files,
    my_model.csv_files, my_model.search.
  split; intros Hf; simpl; rewrite Hdir, Hf; reflexivity.
Qed.

(** X13: the marker is looked for in the whole path of each directory, the
    searched directory's own path included: when the package itself lies
    under a path that contains ['LSTM_outside_example'], both searches fail
    whatever files the package holds. *)
Theorem package_under_marker_finds_nothing (dir : string) (es : entries) :
  plain_names (Dir es) = true ->
  Py.contains my_model.marker dir = true ->
  my_model.model_path dir es
  = Raise (mk_exn FileNotFoundError (my_model.no_model_msg dir))
  /\ my_model.data_path dir es
     = Raise (mk_exn FileNotFoundError (my_model.no_data_msg dir)).
Proof.
  intros Hnames Hdir.
  unfold my_model.model_path, my_model.data_path, my_model.model_files,
    my_model.csv_files.
  rewrite !(excluded_subtree_finds_nothing _ dir es Hnames Hdir).
  split; reflexivity.
Qed.

(** ** Executing [my_model.py] *)

Section MyModelExec.

Context {G : Type}.
Variable file : string.
Variable imports : pymodule -> world G -> outcome pymodule * world G.
Variable load_model : string -> world G -> outcome pyobj * world G.
Variable read_csv : string -> world G -> outcome pyobj * world G.
Variable prepare_dataframe : pyobj -> world G -> outcome pyobj * world G.
Variable def_predict : pymodule -> pyobj.

Local Abbreviation exec :=
  (my_model.exec (G:=G) file imports load_model read_csv prepare_dataframe
     def_predict).
Local Abbreviation dir := (my_model.miner_model_dir file).

(** X14: the statements of the module run in order, so the first failure is
    the one reported, in the state reached by then: a failing import before
    any search, a missing [.h5] file next, a model that cannot be loaded
    before the [.csv] search, a missing [.csv] file only once the model is
    loaded. *)
Theorem first_failure_is_reported (m : pymodule) (w : world G) :
  (forall e w1, imports m w = (Raise e, w1) -> exec m w = (Raise e, w1))
  /\ (forall m1 w1,
        imports m w = (Return m1, w1) ->
        my_model.model_files dir (fs w1) = [] ->
        exec m w
        = (Raise (mk_exn FileNotFoundError (my_model.no_model_msg dir)), w1))
  /\ (forall m1 w1 mp e w2,
        imports m w = (Return m1, w1) ->
        my_model.model_files dir (fs w1) !! 0 = Some mp ->
        load_model mp w1 = (Raise e, w2) ->
        exec m w = (Raise e, w2))
  /\ (forall m1 w1 mp model w2,
        imports m w = (Return m1, w1) ->
        my_model.model_files dir (fs w1) !! 0 = Some mp ->
        load_model mp w1 = (Return model, w2) ->
        my_model.csv_files dir (fs w2) = [] ->
        exec m w
        = (Raise (mk_exn FileNotFoundError (my_model.no_data_msg dir)), w2)).
Proof.
  unfold my_model.exec, my_model.model_path, my_model.data_path.
  repeat split.
  - intros e w1 ->. reflexivity.
  - intros m1 w1 -> ->. reflexivity.
  - intros m1 w1 mp e w2 -> Hmp Hl.
    destruct (my_model.model_files dir (fs w1)) as [|mp' l]; [discriminate|].
    injection Hmp as ->. simpl. rewrite Hl. reflexivity.
  - intros m1 w1 mp model w2 -> Hmp Hl Hcsv.
    destruct (my_model.model_files dir (fs w1)) as [|mp' l]; [discriminate|].
    injection Hmp as ->. simpl. rewrite Hl, Hcsv. reflexivity.
Qed.

(** X15: when the module executes to the end, every step before has
    succeeded in turn, each in the state the step before it left: the
    imports, the [.h5] search, [load_model], the [.csv] search, [read_csv]
    and [prepare_dataframe]; the namespace then binds [predict] and records
    the two selected paths, which are the first [.h5] and the first [.csv]
    file found. *)
Theorem executed_module_binds_predict (m m' : pymodule) (w w' : world G) :
  exec m w = (Return m', w') ->
  exists m1 w1 mp model w2 dp df w3 data,
    imports m w = (Return m1, w1)
    /\ my_model.model_files dir (fs w1) !! 0 = Some mp
    /\ load_model mp w1 = (Return model, w2)
    /\ my_model.csv_files dir (fs w2) !! 0 = Some dp
    /\ read_csv dp w2 = (Return df, w3)
    /\ prepare_dataframe df w3 = (Return data, w')
    /\ mod_dict m' !! "model_path" = Some (PyStr mp)
    /\ mod_dict m' !! "data_path" = Some (PyStr dp)
    /\ mod_dict m' !! "model" = Some model
    /\ mod_dict m' !! "data" = Some data
    /\ is_Some (mod_dict m' !! "predict").
Proof.
  unfold my_model.exec.
  destruct (imports m w) as [[m1|e] w1] eqn:Hi; [|discriminate].
  destruct (my_model.model_path dir (fs w1)) as [mp|e] eqn:Hmp;
    [|discriminate].
  destruct (load_model mp w1) as [[model|e] w2] eqn:Hl; [|discriminate].
  destruct (my_model.data_path dir (fs w2)) as [dp|e] eqn:Hdp;
    [|discriminate].
  destruct (read_csv dp w2) as [[df|e] w3] eqn:Hr; [|discriminate].
  destruct (prepare_dataframe df w3) as [[data|e] w4] eqn:Hp; [|discriminate].
  intros [= <- <-].
  exists m1, w1, mp, model, w2, dp, df, w3, data.
  apply first_or_raise_return in Hmp, Hdp.
  do 6 (split; [assumption || reflexivity|]).
  unfold my_model.bind_name. simpl.
  split; [|split; [|split; [|split]]].
  - rewrite !lookup_insert_ne by discriminate. apply lookup_insert_eq.
  - rewrite !lookup_insert_ne by discriminate. apply lookup_insert_eq.
  - rewrite !lookup_insert_ne by discriminate. apply lookup_insert_eq.
  - rewrite !lookup_insert_ne by discriminate. apply lookup_insert_eq.
  - rewrite lookup_insert_eq. eauto.
Qed.

End MyModelExec.

(** ** [my_model.py] under the loader *)

Lemma endswith_sep_app (a : string) (c : ascii) (b : string) :
  Py.endswith (a +:+ String c b) "/" = Py.endswith (String c b) "/".
Proof.
  induction a as [|x a IH]; [reflexivity|].
  rewrite append_cons, endswith_cons, IH.
  replace (String.eqb (String x (a +:+ String c b)) "/") with false;
    [reflexivity|].
  simpl. destruct (Ascii.eqb x "/"); [|reflexivity].
  destruct a; reflexivity.
Qed.

Lemma has_sep_startswith (name : string) :
  posixpath.has_sep name = false -> Py.startswith name "/" = false.
Proof.
  destruct name as [|c name]; [reflexivity|].
  change (posixpath.has_sep (String c name))
    with (Ascii.eqb c "/" || posixpath.has_sep name).
  change (Py.startswith (String c name) "/")
    with (if ascii_dec "/" c then String.prefix "" name else false).
  destruct (Ascii.eqb_spec c "/") as [->|Hne]; [discriminate|].
  intros _. destruct (ascii_dec "/" c); [congruence|reflexivity].
Qed.

(** X16: the directory that [my_model.py] works out from its own file name
    and then searches is the loader's [miner_model] directory: taking the
    directory name twice undoes the two joins of the loader. *)
Theorem my_model_searches_the_loader_directory
    (current_dir model_file : string) :
  current_dir <> "" -> Py.endswith current_dir "/" = false ->
  posixpath.has_sep model_file = false ->
  my_model.current_dir
    (posixpath.join (model_loader.student_models_dir current_dir) model_file)
  = model_loader.student_models_dir current_dir
  /\ my_model.miner_model_dir
       (posixpath.join (model_loader.student_models_dir current_dir)
          model_file)
     = current_dir.
Proof.
  intros Hne Hend Hplain.
  assert (Hsm : model_loader.student_models_dir current_dir
                = current_dir +:+ "/student_models").
  { unfold model_loader.student_models_dir.
    apply (join_plain current_dir "student_models"); auto. }
  assert (H1 : my_model.current_dir
                 (posixpath.join (model_loader.student_models_dir current_dir)
                    model_file)
               = model_loader.student_models_dir current_dir).
  { unfold my_model.current_dir. apply dirname_join.
    - rewrite Hsm. destruct current_dir; [contradiction|discriminate].
    - rewrite Hsm. rewrite endswith_sep_app. reflexivity.
    - apply has_sep_startswith, Hplain.
    - exact Hplain. }
  split; [exact H1|].
  unfold my_model.miner_model_dir. rewrite H1.
  exact (parent_dir_is_current_dir current_dir Hne Hend).
Qed.

Section MyModelUnderLoader.

Context {G : Type}.
Variable current_dir : string.
Variable spec_from_file_location : string -> string -> option ModuleSpec.
Variable format_exc : exn -> string.
Variable imports : pymodule -> world G -> outcome pymodule * world G.
Variable load_model : string -> world G -> outcome pyobj * world G.
Variable read_csv : string -> world G -> outcome pyobj * world G.
Variable prepare_dataframe : pyobj -> world G -> outcome pyobj * world G.
Variable def_predict : pymodule -> pyobj.

(** The loader executing [my_model.py]: [__file__] is the spec's origin. *)
Local Abbreviation exec_my_model :=
  (fun (spec : ModuleSpec) (m : pymodule) (w : world G) =>
     my_model.exec (spec_origin spec) imports load_model read_csv
       prepare_dataframe def_predict m w).
Local Abbreviation load_student_model :=
  (model_loader.load_student_model current_dir spec_from_file_location
     exec_my_model format_exc).
Local Abbreviation student_models_dir :=
  (model_loader.student_models_dir current_dir).
Local Abbreviation add_parent_dir :=
  (model_loader.add_parent_dir (G:=G) current_dir).
Local Abbreviation found model_file w :=
  (log INFO ("Found student model: " +:+ model_file) w).
Local Abbreviation name_of model_file :=
  ("miner_model.student_models." +:+ Py.drop_last3 model_file).
Local Abbreviation path_of model_file :=
  (posixpath.join student_models_dir model_file).

(** X17: when [my_model.py] is the module loaded, its imports succeed and
    its search then finds no [.h5] file, the [FileNotFoundError] it raises
    is caught by the loader: the call returns [None], and the error record,
    added to the state the imports left, carries the message of the
    search. *)
Theorem my_model_without_model_file
    (w : world G) (es : entries) (model_file : string) (rest : list string)
    (spec : ModuleSpec) (m1 : pymodule) (w1 : world G) :
  lookup_entry "student_models" (fs w) = Some (Dir es) ->
  model_loader.scan (names es) = model_file :: rest ->
  spec_from_file_location (name_of model_file) (path_of model_file)
  = Some spec ->
  spec_has_loader spec = true ->
  imports (model_loader.new_module spec (Py.drop_last3 model_file))
    (add_parent_dir (found model_file w)) = (Return m1, w1) ->
  my_model.model_files (my_model.miner_model_dir (spec_origin spec)) (fs w1)
  = [] ->
  let msg := my_model.no_model_msg (my_model.miner_model_dir (spec_origin spec)) in
  load_student_model w
  = (Return None,
     log DEBUG (format_exc (mk_exn FileNotFoundError msg))
       (log ERROR
          ("Failed to load model from " +:+ model_file +:+ ": " +:+ msg)
          w1)).
Proof.
  intros Hdir Hscan Hspec Hloader Himp Hnone msg.
  rewrite (load_student_model_reached current_dir spec_from_file_location
             exec_my_model format_exc w es model_file rest spec
             (Raise (mk_exn FileNotFoundError msg)) w1
             Hdir Hscan Hspec Hloader).
  - reflexivity.
  - unfold my_model.exec, my_model.model_path.
    rewrite Himp, Hnone. reflexivity.
Qed.

(** X18: when [my_model.py] is the module loaded and its imports, both
    searches, [load_model], [read_csv] and [prepare_dataframe] succeed in
    turn, [load_student_model] returns an adapter and logs the success in
    the state the last step left: the module defines [predict] itself, so
    the check for it does not fail. *)
Theorem my_model_loads
    (w : world G) (es : entries) (model_file : string) (rest : list string)
    (spec : ModuleSpec) (m1 : pymodule) (w1 w2 w3 w4 : world G)
    (mp dp : string) (model df data : pyobj) :
  lookup_entry "student_models" (fs w) = Some (Dir es) ->
  model_loader.scan (names es) = model_file :: rest ->
  spec_from_file_location (name_of model_file) (path_of model_file)
  = Some spec ->
  spec_has_loader spec = true ->
  imports (model_loader.new_module spec (Py.drop_last3 model_file))
    (add_parent_dir (found model_file w)) = (Return m1, w1) ->
  my_model.model_files (my_model.miner_model_dir (spec_origin spec)) (fs w1)
    !! 0 = Some mp ->
  load_model mp w1 = (Return model, w2) ->
  my_model.csv_files (my_model.miner_model_dir (spec_origin spec)) (fs w2)
    !! 0 = Some dp ->
  read_csv dp w2 = (Return df, w3) ->
  prepare_dataframe df w3 = (Return data, w4) ->
  exists predict,
    load_student_model w
    = (Return (Some (FunctionBasedModel predict)),
       log SUCCESS ("Successfully loaded model from " +:+ model_file) w4).
Proof.
  intros Hdir Hscan Hspec Hloader Himp Hmp Hlm Hdp Hrc Hpd.
  destruct (my_model.exec (spec_origin spec) imports load_model read_csv
              prepare_dataframe def_predict
              (model_loader.new_module spec (Py.drop_last3 model_file))
              (add_parent_dir (found model_file w))) as [r w'] eqn:Hexec.
  pose proof Hexec as Hrun. unfold my_model.exec in Hrun.
  unfold my_model.model_path, my_model.data_path in Hrun.
  rewrite Himp in Hrun.
  destruct (my_model.model_files _ (fs w1)) as [|mp' l1]; [discriminate|].
  injection Hmp as ->. simpl in Hrun. rewrite Hlm in Hrun.
  destruct (my_model.csv_files _ (fs w2)) as [|dp' l2]; [discriminate|].
  injection Hdp as ->. simpl in Hrun. rewrite Hrc, Hpd in Hrun.
  injection Hrun as <- <-.
  eexists.
  rewrite (load_student_model_reached current_dir spec_from_file_location
             exec_my_model format_exc w es model_file rest spec _ _
             Hdir Hscan Hspec Hloader Hexec).
  unfold my_model.bind_name at 1. simpl mod_dict.
  rewrite lookup_insert_eq. reflexivity.
Qed.

(** When an import of [my_model.py] fails, no search is run: the loader
    reports the import error. *)
Lemma my_model_import_failure
    (w : world G) (es : entries) (model_file : string) (rest : list string)
    (spec : ModuleSpec) (e : exn) (w1 : world G) :
  lookup_entry "student_models" (fs w) = Some (Dir es) ->
  model_loader.scan (names es) = model_file :: rest ->
  spec_from_file_location (name_of model_file) (path_of model_file)
  = Some spec ->
  spec_has_loader spec = true ->
  imports (model_loader.new_module spec (Py.drop_last3 model_file))
    (add_parent_dir (found model_file w)) = (Raise e, w1) ->
  is_Exception (exn_cls e) = true ->
  load_student_model w
  = (Return None,
     log DEBUG (format_exc e)
       (log ERROR
          ("Failed to load model from " +:+ model_file +:+ ": " +:+ exn_str e)
          w1)).
Proof.
  intros Hdir Hscan Hspec Hloader Himp Hexn.
  rewrite (load_student_model_reached current_dir spec_from_file_location
             exec_my_model format_exc w es model_file rest spec
             (Raise e) w1 Hdir Hscan Hspec Hloader).
  - rewrite Hexn. reflexivity.
  - unfold my_model.exec. rewrite Himp. reflexivity.
Qed.

End MyModelUnderLoader.

(** ** The attributes the loader sets *)

Section FreshModule.

Context {G : Type}.
Variable current_dir : string.
Variable spec_from_file_location : string -> string -> option ModuleSpec.
Variable exec_module :
  ModuleSpec -> pymodule -> world G -> outcome pymodule * world G.
Variable format_exc : exn -> string.

Local Abbreviation load_student_model :=
  (model_loader.load_student_model current_dir spec_from_file_location
     exec_module format_exc).

(** X19: the module object is handed over with [__name__], [__package__]
    and [__file__] set and without [predict]; if the executed code leaves
    the [predict] attribute as it found it, the call ends in the
    missing-[predict] error. *)
Theorem loader_attributes_do_not_count
    (w : world G) (es : entries) (model_file : string) (rest : list string)
    (spec : ModuleSpec) (module : pymodule) (w2 : world G) :
  let fresh := model_loader.new_module spec (Py.drop_last3 model_file) in
  lookup_entry "student_models" (fs w) = Some (Dir es) ->
  model_loader.scan (names es) = model_file :: rest ->
  spec_from_file_location
    ("miner_model.student_models." +:+ Py.drop_last3 model_file)
    (posixpath.join (model_loader.student_models_dir current_dir) model_file)
  = Some spec ->
  spec_has_loader spec = true ->
  exec_module spec fresh
    (model_loader.add_parent_dir current_dir
       (log INFO ("Found student model: " +:+ model_file) w))
  = (Return module, w2) ->
  mod_dict module !! "predict" = mod_dict fresh !! "predict" ->
  mod_dict fresh !! "__name__"
  = Some (PyStr ("miner_model.student_models." +:+ Py.drop_last3 model_file))
  /\ mod_dict fresh !! "__package__"
     = Some (PyStr "miner_model.student_models")
  /\ mod_dict fresh !! "__file__" = Some (PyStr (spec_origin spec))
  /\ load_student_model w
     = (Return None, log ERROR (model_loader.no_predict_msg model_file) w2).
Proof.
  intros fresh Hdir Hscan Hspec Hloader Hexec Hsame.
  assert (Hp : mod_dict fresh !! "predict" = None).
  { subst fresh. unfold model_loader.new_module, model_loader.setattr,
      model_loader.module_from_spec. simpl.
    rewrite !lookup_insert_ne by discriminate. apply lookup_empty. }
  subst fresh.
  unfold model_loader.new_module, model_loader.setattr,
    model_loader.module_from_spec in *. simpl mod_dict in *.
  split; [apply lookup_insert_eq|].
  split; [rewrite lookup_insert_ne by discriminate; apply lookup_insert_eq|].
  split.
  { rewrite !lookup_insert_ne by discriminate. apply lookup_insert_eq. }
  rewrite (load_student_model_reached current_dir spec_from_file_location
             exec_module format_exc w es model_file rest spec _ _
             Hdir Hscan Hspec Hloader Hexec).
  rewrite Hsame, Hp. reflexivity.
Qed.

End FreshModule.

(** ** The example folder does not take part in the search *)

Lemma visit_ignores_dirs (ext root : string) (ds ds' fls : list string) :
  my_model.visit ext (root, ds, fls) = my_model.visit ext (root, ds', fls).
Proof. reflexivity. Qed.

Lemma filenames_without_dir (es1 es2 : entries) (name : string) (sub : entries) :
  filenames (es1 ++ (name, Dir sub) :: es2) = filenames (es1 ++ es2).
Proof.
  unfold filenames. rewrite !List.filter_app. reflexivity.
Qed.

(** X20: a directory whose path contains the marker is invisible to the
    searches: with or without it among the entries of the searched
    directory, wherever it stands in the enumeration and whatever it holds,
    the list of files found is the same, and so are the selected model and
    data paths. *)
Theorem example_folder_is_invisible
    (dir : string) (es1 es2 : entries) (name : string) (sub : entries) :
  plain_names (Dir sub) = true ->
  Py.contains my_model.marker (posixpath.join dir name) = true ->
  (forall ext,
      my_model.search ext dir (es1 ++ (name, Dir sub) :: es2)
      = my_model.search ext dir (es1 ++ es2))
  /\ my_model.model_path dir (es1 ++ (name, Dir sub) :: es2)
     = my_model.model_path dir (es1 ++ es2)
  /\ my_model.data_path dir (es1 ++ (name, Dir sub) :: es2)
     = my_model.data_path dir (es1 ++ es2).
Proof.
  intros Hnames Hmarker.
  assert (H : forall ext,
             my_model.search ext dir (es1 ++ (name, Dir sub) :: es2)
             = my_model.search ext dir (es1 ++ es2)).
  { intros ext. unfold my_model.search.
    change (walk dir (Dir (es1 ++ (name, Dir sub) :: es2)))
      with ((dir, dirnames (es1 ++ (name, Dir sub) :: es2),
             filenames (es1 ++ (name, Dir sub) :: es2))
            :: flat_map (fun e => let '(n, child) := e in
                                  walk (posixpath.join dir n) child)
                 (es1 ++ (name, Dir sub) :: es2)).
    change (walk dir (Dir (es1 ++ es2)))
      with ((dir, dirnames (es1 ++ es2), filenames (es1 ++ es2))
            :: flat_map (fun e => let '(n, child) := e in
                                  walk (posixpath.join dir n) child)
                 (es1 ++ es2)).
    rewrite filenames_without_dir.
    change (flat_map (my_model.visit ext) (?x :: ?l))
      with (my_model.visit ext x ++ flat_map (my_model.visit ext) l).
    rewrite (visit_ignores_dirs ext dir _ (dirnames (es1 ++ es2))).
    f_equal.
    rewrite !flat_map_app. simpl flat_map at 3. rewrite !flat_map_app.
    f_equal.
    pose proof (excluded_subtree_finds_nothing ext _ sub Hnames Hmarker)
      as Hsub.
    unfold my_model.search in Hsub.
    change (walk (posixpath.join dir name) (Dir sub))
      with ((posixpath.join dir name, dirnames sub, filenames sub)
            :: flat_map (fun e => let '(n, child) := e in
                                  walk (posixpath.join
                                          (posixpath.join dir name) n) child)
                 sub) in Hsub.
    change (flat_map (my_model.visit ext) (?x :: ?l))
      with (my_model.visit ext x ++ flat_map (my_model.visit ext) l) in Hsub.
    apply app_eq_nil in Hsub as [_ Hsub].
    rewrite Hmarker, Hsub. reflexivity. }
  split; [exact H|].
  unfold my_model.model_path, my_model.data_path, my_model.model_files,
    my_model.csv_files.
  rewrite !H. split; reflexivity.
Qed.

(** ** The further properties at the sample inputs *)

Section FurtherAtSamples.

Import Samples.

Local Abbreviation load exec w :=
  (model_loader.load_student_model root source_spec exec no_traceback w).
Local Abbreviation listed :=
  [("__init__.py", File); ("helpers.py", File);
   ("my_model.py", File); ("other.py", File)].

Lemma candidate_stem_witness :
  model_loader.is_candidate "my_model.py" = true
  /\ Py.drop_last3 "my_model.py" +:+ ".py" = "my_model.py".
Proof.
  destruct (candidate_stem_round_trip "my_model.py") as [_ H].
  split; [reflexivity|]. apply H. reflexivity.
Defined.

Lemma exception_from_module_witness :
  load exec_import_error w_default
  = (Return None,
     log DEBUG "Traceback (most recent call last):"
       (log ERROR
          "Failed to load model from my_model.py: No module named 'tensorflow'"
          (model_loader.add_parent_dir root
             (log INFO "Found student model: my_model.py" w_default)))).
Proof.
  destruct (exception_from_module root source_spec exec_import_error
              no_traceback w_default listed "my_model.py" ["other.py"]
              (mk_spec "miner_model.student_models.my_model"
                 "/repo/miner_model/student_models/my_model.py" true)
              (mk_exn ImportError "No module named 'tensorflow'")
              (model_loader.add_parent_dir root
                 (log INFO "Found student model: my_model.py" w_default))
              eq_refl eq_refl eq_refl eq_refl eq_refl) as [H _].
  exact (H eq_refl).
Defined.

Lemma predict_is_wrapped_witness :
  fst (load exec_defines_predict w_default)
  = Return (Some (FunctionBasedModel (PyRef 1))).
Proof.
  erewrite (predict_is_wrapped root source_spec exec_defines_predict
              no_traceback w_default listed "my_model.py");
    reflexivity.
Defined.

Lemma spec_failure_witness :
  fst (model_loader.load_student_model root (fun _ _ => None)
         exec_defines_predict no_traceback w_default) = Return None
  /\ sys_path (snd (model_loader.load_student_model root (fun _ _ => None)
                      exec_defines_predict no_traceback w_default)) = [].
Proof.
  destruct (spec_failure_returns_none root (fun _ _ => None)
              exec_defines_predict no_traceback w_default listed
              "my_model.py" ["other.py"] eq_refl eq_refl (or_introl eq_refl))
    as [H1 H2].
  split; [rewrite H1; reflexivity | exact H2].
Defined.

Lemma adapter_comes_from_first_listed_witness :
  exists rest,
    model_loader.list_available_models root w_default
    = Return ("my_model.py" :: rest).
Proof.
  destruct (adapter_comes_from_first_listed root source_spec
              exec_defines_predict no_traceback w_default
              (FunctionBasedModel (PyRef 1))
              (snd (load exec_defines_predict w_default)) eq_refl)
    as (f & rest & _ & _ & _ & _ & _ & _ & _ & _ & _).
  exists ["other.py"]. reflexivity.
Defined.

Lemma listing_failure_witness :
  load exec_defines_predict w_not_a_dir
  = (Raise (mk_exn NotADirectoryError
              "[Errno 20] Not a directory: '/repo/miner_model/student_models'"),
     w_not_a_dir).
Proof.
  destruct (ordinary_exception_means_listing_failed root source_spec
              exec_defines_predict no_traceback w_not_a_dir
              (mk_exn NotADirectoryError
                 "[Errno 20] Not a directory: '/repo/miner_model/student_models'")
              w_not_a_dir)
    as [_ H].
  apply H. reflexivity.
Defined.

Lemma missing_and_empty_witness :
  model_loader.list_available_models root w_no_dir = Return []
  /\ model_loader.list_available_models root w_no_candidate = Return [].
Proof.
  destruct (missing_and_empty_directory root source_spec exec_defines_predict
              no_traceback w_no_dir w_no_candidate
              [("__init__.py", File); ("helpers.py", File);
               ("README.md", File)] eq_refl eq_refl eq_refl)
    as (H1 & H2 & _).
  split; [exact H1 | exact H2].
Defined.

Lemma listed_models_witness :
  exists models,
    model_loader.list_available_models root w_default = Return models
    /\ NoDup models.
Proof.
  destruct (listed_models_characterised root w_default listed eq_refl)
    as (models & Hl & _ & _ & Hnd).
  exists models. split; [exact Hl|]. apply Hnd.
  repeat (apply NoDup_cons; split;
          [rewrite list_elem_of_In; simpl; intuition discriminate|]).
  apply NoDup_nil. exact I.
Defined.


Lemma second_call_witness :
  sys_path (snd (load exec_defines_predict
                   (snd (load exec_defines_predict w_default))))
  = sys_path (snd (load exec_defines_predict w_default)).
Proof.
  apply (second_call_keeps_sys_path root source_spec exec_defines_predict
           no_traceback w_default).
  intros spec m w0. reflexivity.
Defined.

End FurtherAtSamples.

Section MyModelAtSamples.

Import Samples.

Local Abbreviation load exec w :=
  (model_loader.load_student_model root source_spec exec no_traceback w).
Local Abbreviation listed :=
  [("__init__.py", File); ("helpers.py", File);
   ("my_model.py", File); ("other.py", File)].
Local Abbreviation my_model_spec :=
  (mk_spec "miner_model.student_models.my_model"
     "/repo/miner_model/student_models/my_model.py" true).

Lemma selected_paths_witness :
  Py.endswith "/repo/miner_model/mine.h5" ".h5" = true
  /\ "/repo/miner_model/mine.h5" <> "/repo/miner_model/data.csv".
Proof.
  destruct (selected_paths_have_their_extension root (fs w_default))
    as (Hm & _ & Hne).
  split; [apply Hm | apply Hne]; reflexivity.
Defined.

Lemma top_level_file_witness :
  my_model.model_path root (fs w_default)
  = Return (posixpath.join root "mine.h5").
Proof.
  destruct (top_level_file_wins root (fs w_default) "mine.h5" [] eq_refl)
    as [H _].
  apply H. reflexivity.
Defined.

Lemma package_under_marker_witness :
  my_model.model_path "/home/LSTM_outside_example/miner_model" (fs w_default)
  = Raise (mk_exn FileNotFoundError
             (my_model.no_model_msg "/home/LSTM_outside_example/miner_model")).
Proof.
  apply (package_under_marker_finds_nothing
           "/home/LSTM_outside_example/miner_model" (fs w_default));
    reflexivity.
Defined.

Lemma first_failure_witness :
  my_model.exec "/repo/miner_model/student_models/my_model.py"
    imports_ok keras_load pandas_read prepare (fun _ => PyRef 4)
    (mk_module ∅) n_only_example
  = (Raise (mk_exn FileNotFoundError (my_model.no_model_msg root)),
     snd (imports_ok (mk_module ∅) n_only_example))
  /\ my_model.exec "/repo/miner_model/student_models/my_model.py"
       imports_fail keras_load pandas_read prepare (fun _ => PyRef 4)
       (mk_module ∅) n_default
     = (Raise (mk_exn ImportError "No module named 'tensorflow'"), n_default).
Proof.
  split.
  - destruct (first_failure_is_reported
                "/repo/miner_model/student_models/my_model.py"
                imports_ok keras_load pandas_read prepare (fun _ => PyRef 4)
                (mk_module ∅) n_only_example) as (_ & H & _).
    eapply H; reflexivity.
  - destruct (first_failure_is_reported
                "/repo/miner_model/student_models/my_model.py"
                imports_fail keras_load pandas_read prepare (fun _ => PyRef 4)
                (mk_module ∅) n_default) as (H & _).
    apply H. reflexivity.
Defined.

Lemma executed_module_witness :
  exists w1 mp dp,
    my_model.model_files root (fs w1) !! 0 = Some mp
    /\ my_model.csv_files root (fs w1) !! 0 = Some dp
    /\ globals w1 = 1.
Proof.
  pose proof (fun m' w' =>
                executed_module_binds_predict
                  "/repo/miner_model/student_models/my_model.py"
                  imports_ok keras_load pandas_read prepare
                  (fun _ => PyRef 4) (mk_module ∅) m' n_default w') as H.
  edestruct H
    as (m1 & w1 & mp & model & w2 & dp & df & w3 & data
        & Hi & Hm & Hl & Hd & _).
  { reflexivity. }
  injection Hi as <- <-. injection Hl as <- <-.
  eexists _, mp, dp. split; [exact Hm|]. split; [exact Hd|]. reflexivity.
Defined.

Lemma my_model_directory_witness :
  my_model.miner_model_dir "/repo/miner_model/student_models/my_model.py"
  = root.
Proof.
  apply (my_model_searches_the_loader_directory root "my_model.py").
  - discriminate.
  - reflexivity.
  - reflexivity.
Defined.

Lemma my_model_without_model_file_witness :
  fst (load exec_my_model n_only_example) = Return None.
Proof.
  exact (f_equal fst
           (my_model_without_model_file root source_spec no_traceback
              imports_ok keras_load pandas_read prepare (fun _ => PyRef 4)
              n_only_example listed "my_model.py" ["other.py"] my_model_spec
              _ _ eq_refl eq_refl eq_refl eq_refl eq_refl eq_refl)).
Defined.

Lemma my_model_loads_witness :
  exists predict,
    fst (load exec_my_model n_default)
    = Return (Some (FunctionBasedModel predict)).
Proof.
  destruct (my_model_loads root source_spec no_traceback
              imports_ok keras_load pandas_read prepare (fun _ => PyRef 4)
              n_default listed "my_model.py" ["other.py"] my_model_spec
              _ _ _ _ _
              "/repo/miner_model/mine.h5" "/repo/miner_model/data.csv"
              (PyRef 1) (PyRef 2) (PyRef 3)
              eq_refl eq_refl eq_refl eq_refl eq_refl eq_refl eq_refl eq_refl
              eq_refl eq_refl) as [predict H].
  exists predict. exact (f_equal fst H).
Defined.

Lemma loader_attributes_witness :
  load exec_empty w_default
  = (Return None,
     log ERROR (model_loader.no_predict_msg "my_model.py")
       (model_loader.add_parent_dir root
          (log INFO "Found student model: my_model.py" w_default))).
Proof.
  apply (loader_attributes_do_not_count root source_spec exec_empty
           no_traceback w_default listed "my_model.py" ["other.py"]
           my_model_spec
           (model_loader.new_module my_model_spec "my_model")
           (model_loader.add_parent_dir root
              (log INFO "Found student model: my_model.py" w_default))
           eq_refl eq_refl eq_refl eq_refl eq_refl eq_refl).
Defined.

Lemma example_folder_witness :
  my_model.model_path root (fs w_default)
  = my_model.model_path root
      [("student_models", student_models);
       ("mine.h5", File); ("data.csv", File)].
Proof.
  apply (example_folder_is_invisible root
           [("student_models", student_models)]
           [("mine.h5", File); ("data.csv", File)]
           "LSTM_outside_example" [("lstm_model.h5", File)]);
    reflexivity.
Defined.

End MyModelAtSamples.

(** * Selection and the enumeration order *)

(** ** The first match *)

Lemma filter_first_such {A} (Pb : A -> bool) (P : A -> Prop) (l : list A) :
  (forall y, Pb y = true <-> P y) ->
  (forall x, List.filter Pb l !! 0 = Some x <-> enumeration.first_such P l x)
  /\ (List.filter Pb l = [] <-> Forall (fun y => ~ P y) l).
Proof.
  intros Hrefl.
  assert (Hfalse : forall y, ~ P y <-> Pb y = false).
  { intros y. rewrite <- Hrefl. destruct (Pb y); split; congruence. }
  assert (Hnil : forall k, List.filter Pb k = [] <-> Forall (fun y => ~ P y) k).
  { intros k. rewrite Forall_forall. split.
    - intros Hk y Hy HP. apply Hrefl in HP.
      assert (Hin : In y (List.filter Pb k)).
      { apply filter_In. split; [apply list_elem_of_In, Hy | exact HP]. }
      rewrite Hk in Hin. exact Hin.
    - intros Hk. apply filter_all_false. intros y Hy.
      apply Hfalse, Hk, list_elem_of_In, Hy. }
  split; [|apply Hnil].
  intros x. split.
  - destruct (List.filter Pb l) as [|x' rest] eqn:Hf; [discriminate|].
    intros [= ->].
    destruct (filter_first _ _ _ _ Hf) as (pre & post & -> & Hpre & Hx & _).
    exists pre, post. split; [reflexivity|]. split.
    + eapply Forall_impl; [exact Hpre|]. intros y Hy. apply Hfalse, Hy.
    + apply Hrefl, Hx.
  - intros (pre & post & -> & Hpre & Hx).
    rewrite List.filter_app. apply Hnil in Hpre. rewrite Hpre. simpl.
    apply Hrefl in Hx. rewrite Hx. reflexivity.
Qed.

Lemma model_name_iff (file : string) :
  model_loader.is_candidate file = true <-> enumeration.model_name file.
Proof.
  rewrite is_candidate_spec. unfold enumeration.model_name,
    model_loader.excluded_files.
  split.
  - intros [Hs Hex]. split; [exact Hs|]. split; intros ->; apply Hex.
    + apply list_elem_of_here.
    + apply list_elem_of_further, list_elem_of_here.
  - intros (Hs & H1 & H2). split; [exact Hs|].
    rewrite !list_elem_of_In. simpl. intros [<-|[<-|[]]]; congruence.
Qed.

Lemma wanted_iff (ext : string) (rf : string * string) :
  enumeration.wanted_b ext rf = true <-> enumeration.wanted ext rf.
Proof.
  unfold enumeration.wanted_b, enumeration.wanted, my_model.marker.
  rewrite andb_true_iff, negb_true_iff. reflexivity.
Qed.

(** What one directory contributes, read as a filter over its files. *)
Lemma visit_as_filter (ext root : string) (ds fls : list string) :
  my_model.visit ext (root, ds, fls)
  = map enumeration.join_pair
      (List.filter (enumeration.wanted_b ext) (map (pair root) fls)).
Proof.
  unfold my_model.visit, enumeration.wanted_b.
  destruct (Py.contains my_model.marker root) eqn:Hm.
  - rewrite filter_all_false; [reflexivity|].
    intros rf Hin. apply in_map_iff in Hin as (f & <- & _).
    simpl. rewrite Hm. reflexivity.
  - induction fls as [|f fls IH]; [reflexivity|].
    simpl. rewrite Hm. simpl.
    destruct (Py.endswith f ext); simpl; rewrite IH; reflexivity.
Qed.

(** The list a search builds is the walk's files, filtered, as paths. *)
Lemma search_as_filter (ext dir : string) (es : entries) :
  my_model.search ext dir es
  = map enumeration.join_pair
      (List.filter (enumeration.wanted_b ext)
         (enumeration.walk_files dir (Dir es))).
Proof.
  unfold my_model.search, enumeration.walk_files.
  induction (walk dir (Dir es)) as [|[[root ds] fls] items IH];
    [reflexivity|].
  change (flat_map (my_model.visit ext) ((root, ds, fls) :: items))
    with (my_model.visit ext (root, ds, fls)
          ++ flat_map (my_model.visit ext) items).
  rewrite (visit_as_filter ext root ds fls), IH.
  rewrite <- map_app, <- List.filter_app. reflexivity.
Qed.

Lemma map_first {A B} (f : A -> B) (l : list A) (y : B) :
  map f l !! 0 = Some y <-> exists x, l !! 0 = Some x /\ f x = y.
Proof.
  destruct l as [|x l]; simpl; split.
  - discriminate.
  - intros (x & [=] & _).
  - intros [= <-]. eauto.
  - intros (x' & [= <-] & <-). reflexivity.
Qed.

Lemma search_first (ext dir : string) (es : entries) (p : string) :
  my_model.search ext dir es !! 0 = Some p <->
  exists root file,
    enumeration.first_such (enumeration.wanted ext)
      (enumeration.walk_files dir (Dir es)) (root, file)
    /\ p = posixpath.join root file.
Proof.
  rewrite search_as_filter, map_first.
  destruct (filter_first_such (enumeration.wanted_b ext)
              (enumeration.wanted ext) (enumeration.walk_files dir (Dir es))
              (wanted_iff ext)) as [Hfirst _].
  split.
  - intros ([root file] & Hx & <-). exists root, file.
    split; [apply Hfirst, Hx | reflexivity].
  - intros (root & file & Hx & ->). exists (root, file).
    split; [apply Hfirst, Hx | reflexivity].
Qed.

Lemma search_none (ext dir : string) (es : entries) :
  my_model.search ext dir es = [] <->
  Forall (fun rf => ~ enumeration.wanted ext rf)
         (enumeration.walk_files dir (Dir es)).
Proof.
  rewrite search_as_filter.
  destruct (filter_first_such (enumeration.wanted_b ext)
              (enumeration.wanted ext) (enumeration.walk_files dir (Dir es))
              (wanted_iff ext)) as [_ Hnone].
  rewrite <- Hnone. split.
  - intros H. destruct (List.filter _ _); [reflexivity|discriminate].
  - intros ->. reflexivity.
Qed.

Section FirstMatch.

Context {G : Type}.
Variable current_dir : string.

Local Abbreviation discover := (model_loader.discover (G:=G) current_dir).

(** C7: in each partition the selected artifact is the first match of the
    enumeration order.  The implementation file selected is the first name
    in the [os.listdir] listing that ends in ['.py'] and is not reserved,
    and none is selected exactly when the listing has no such name.  The
    model file selected is the path of the first file in [os.walk] order
    that ends in ['.h5'] and lies in a directory whose path does not mention
    the example folder, and the search raises [FileNotFoundError] exactly
    when there is no such file; likewise for the data file and ['.csv'].
    Each selection is one file. *)
Theorem selection_is_first_in_enumeration (w : world G) (dir : string) :
  (forall es,
      lookup_entry "student_models" (fs w) = Some (Dir es) ->
      (forall model_file,
          fst (discover w) = Return (Some model_file) <->
          enumeration.first_such enumeration.model_name (names es) model_file)
      /\ (fst (discover w) = Return None <->
          Forall (fun f => ~ enumeration.model_name f) (names es)))
  /\ (forall p,
        my_model.model_path dir (fs w) = Return p <->
        exists root file,
          enumeration.first_such (enumeration.wanted ".h5")
            (enumeration.walk_files dir (Dir (fs w))) (root, file)
          /\ p = posixpath.join root file)
  /\ (my_model.model_path dir (fs w)
      = Raise (mk_exn FileNotFoundError (my_model.no_model_msg dir)) <->
      Forall (fun rf => ~ enumeration.wanted ".h5" rf)
             (enumeration.walk_files dir (Dir (fs w))))
  /\ (forall p,
        my_model.data_path dir (fs w) = Return p <->
        exists root file,
          enumeration.first_such (enumeration.wanted ".csv")
            (enumeration.walk_files dir (Dir (fs w))) (root, file)
          /\ p = posixpath.join root file)
  /\ (my_model.data_path dir (fs w)
      = Raise (mk_exn FileNotFoundError (my_model.no_data_msg dir)) <->
      Forall (fun rf => ~ enumeration.wanted ".csv" rf)
             (enumeration.walk_files dir (Dir (fs w)))).
Proof.
  split; [|split; [|split; [|split]]].
  - intros es Hdir. rewrite (discover_directory _ _ _ Hdir).
    destruct (filter_first_such model_loader.is_candidate
                enumeration.model_name (names es) model_name_iff)
      as [Hfirst Hnone].
    fold (model_loader.scan (names es)) in Hfirst, Hnone.
    split.
    + intros f. rewrite <- Hfirst.
      destruct (model_loader.scan (names es)) as [|f' rest]; simpl; split.
      * discriminate.
      * discriminate.
      * intros [= ->]. reflexivity.
      * intros [= ->]. reflexivity.
    + rewrite <- Hnone.
      destruct (model_loader.scan (names es)) as [|f' rest]; simpl; split;
        try discriminate; reflexivity.
  - intros p. unfold my_model.model_path, my_model.model_files.
    rewrite first_or_raise_return. apply search_first.
  - unfold my_model.model_path, my_model.model_files.
    rewrite first_or_raise_raise, <- search_none.
    split; [intros [H _]; exact H | intros H; split; [exact H|reflexivity]].
  - intros p. unfold my_model.data_path, my_model.csv_files.
    rewrite first_or_raise_return. apply search_first.
  - unfold my_model.data_path, my_model.csv_files.
    rewrite first_or_raise_raise, <- search_none.
    split; [intros [H _]; exact H | intros H; split; [exact H|reflexivity]].
Qed.

End FirstMatch.

(** ** The same tree in another order *)

Lemma filter_Permutation {A} (f : A -> bool) (l l' : list A) :
  l ≡ₚ l' -> List.filter f l ≡ₚ List.filter f l'.
Proof.
  induction 1 as [|x l l' _ IH|x y l|l l' l'' _ IH1 _ IH2]; simpl.
  - reflexivity.
  - destruct (f x); [constructor|]; exact IH.
  - destruct (f x), (f y); try reflexivity. apply perm_swap.
  - etransitivity; eassumption.
Qed.

Lemma visit_Permutation (ext root : string) (ds ds' fls fls' : list string) :
  fls ≡ₚ fls' ->
  my_model.visit ext (root, ds, fls) ≡ₚ my_model.visit ext (root, ds', fls').
Proof.
  intros H. unfold my_model.visit.
  destruct (Py.contains my_model.marker root); [reflexivity|].
  apply Permutation_map, filter_Permutation, H.
Qed.

Lemma same_tree_refl (n : node) : enumeration.same_tree n n.
Proof.
  induction n as [| | es IH] using node_tree_ind; try constructor.
  induction es as [|[name child] es IHes]; [constructor|].
  inversion IH as [|? ? Hc Hes]; subst.
  constructor; [exact Hc | apply IHes, Hes].
Qed.

Lemma same_entries_refl (es : entries) : enumeration.same_entries es es.
Proof.
  pose proof (same_tree_refl (Dir es)) as H. inversion H. assumption.
Qed.

Lemma same_tree_trans (a b c : node) :
  enumeration.same_tree a b -> enumeration.same_tree b c ->
  enumeration.same_tree a c.
Proof.
  intros Hab Hbc. destruct Hab; inversion Hbc; subst; try constructor.
  eapply enumeration.same_trans; eassumption.
Qed.

(** The names, and the kind of each entry, do not depend on the order. *)
Lemma same_entries_names (es1 es2 : entries) :
  enumeration.same_entries es1 es2 ->
  names es1 ≡ₚ names es2 /\ filenames es1 ≡ₚ filenames es2.
Proof.
  intros H.
  induction H using enumeration.same_entries_mut
    with (P := fun n1 n2 => is_dir n1 = is_dir n2).
  - reflexivity.
  - reflexivity.
  - reflexivity.
  - split; reflexivity.
  - destruct IHsame_entries0 as [Hn Hf]. split.
    + simpl. constructor. exact Hn.
    + unfold filenames in *. simpl. rewrite <- IHsame_entries.
      destruct (is_dir n1); simpl; [exact Hf | constructor; exact Hf].
  - split.
    + simpl. apply perm_swap.
    + unfold filenames. simpl.
      destruct (is_dir (snd e1)), (is_dir (snd e2)); simpl;
        try reflexivity. apply perm_swap.
  - destruct IHsame_entries1, IHsame_entries2.
    split; etransitivity; eassumption.
Qed.

Lemma walk_Dir (top : string) (es : entries) :
  walk top (Dir es)
  = (top, dirnames es, filenames es)
    :: flat_map (fun e => let '(name, child) := e in
                          walk (posixpath.join top name) child) es.
Proof. reflexivity. Qed.

(** What a search finds does not depend on the order, up to the order of
    the finds. *)
Lemma same_entries_search (es1 es2 : entries) :
  enumeration.same_entries es1 es2 ->
  forall ext top,
    my_model.search ext top es1 ≡ₚ my_model.search ext top es2.
Proof.
  intros H.
  assert (Hchildren : forall ext top,
             flat_map (my_model.visit ext)
               (flat_map (fun e => let '(name, child) := e in
                                   walk (posixpath.join top name) child) es1)
             ≡ₚ flat_map (my_model.visit ext)
                  (flat_map (fun e => let '(name, child) := e in
                                      walk (posixpath.join top name) child)
                     es2)).
  { induction H using enumeration.same_entries_mut
      with (P := fun n1 n2 =>
                   forall ext top,
                     flat_map (my_model.visit ext) (walk top n1)
                     ≡ₚ flat_map (my_model.visit ext) (walk top n2)).
    - reflexivity.
    - reflexivity.
    - intros ext top. rewrite !walk_Dir.
      change (flat_map (my_model.visit ext) (?x :: ?l))
        with (my_model.visit ext x ++ flat_map (my_model.visit ext) l).
      apply Permutation_app; [|apply IHsame_entries].
      apply visit_Permutation, (same_entries_names _ _ H).
    - reflexivity.
    - intros ext top. simpl. rewrite !flat_map_app.
      apply Permutation_app; [apply IHsame_entries | apply IHsame_entries0].
    - intros ext top. destruct e1 as [a x], e2 as [b y]. simpl.
      rewrite !flat_map_app. apply Permutation_app_swap_app.
    - intros ext top. etransitivity; [apply IHsame_entries1|].
      apply IHsame_entries2. }
  intros ext top. unfold my_model.search. rewrite !walk_Dir.
  change (flat_map (my_model.visit ext) (?x :: ?l))
    with (my_model.visit ext x ++ flat_map (my_model.visit ext) l).
  apply Permutation_app; [|apply Hchildren].
  apply visit_Permutation, (same_entries_names _ _ H).
Qed.

Lemma lookup_entry_cons (name n0 : string) (x : node) (es : entries) :
  lookup_entry name ((n0, x) :: es)
  = if String.eqb n0 name then Some x else lookup_entry name es.
Proof.
  unfold lookup_entry. simpl. destruct (String.eqb n0 name); reflexivity.
Qed.

Lemma lookup_entry_names (name : string) (es : entries) (x : node) :
  lookup_entry name es = Some x -> name ∈ names es.
Proof.
  induction es as [|[n0 y] es IH]; [discriminate|].
  rewrite lookup_entry_cons. simpl.
  destruct (String.eqb_spec n0 name) as [->|Hne].
  - intros _. apply list_elem_of_here.
  - intros H. apply list_elem_of_further, IH, H.
Qed.

(** Two results of looking a name up that agree up to the order below. *)
Lemma lookup_same (es1 es2 : entries) :
  enumeration.same_entries es1 es2 ->
  NoDup (names es1) ->
  forall key,
    match lookup_entry key es1, lookup_entry key es2 with
    | Some n1, Some n2 => enumeration.same_tree n1 n2
    | None, None => True
    | _, _ => False
    end.
Proof.
  intros H.
  induction H using enumeration.same_entries_mut
    with (P := fun n1 n2 => enumeration.same_tree n1 n2).
  - constructor.
  - constructor.
  - constructor. exact H.
  - intros _ key. exact I.
  - intros Hnd key. simpl in Hnd. apply NoDup_cons in Hnd as [_ Hnd].
    rewrite !lookup_entry_cons.
    destruct (String.eqb name key); [exact IHsame_entries|].
    apply IHsame_entries0, Hnd.
  - intros Hnd key. destruct e1 as [a x], e2 as [b y]. simpl in Hnd.
    apply NoDup_cons in Hnd as [Hab _].
    rewrite !lookup_entry_cons.
    destruct (String.eqb_spec a key) as [->|Ha];
      destruct (String.eqb_spec b key) as [->|Hb].
    + destruct Hab. apply list_elem_of_here.
    + apply same_tree_refl.
    + apply same_tree_refl.
    + destruct (lookup_entry key es); [apply same_tree_refl | exact I].
  - intros Hnd key.
    assert (Hnd2 : NoDup (names es2)).
    { destruct (same_entries_names _ _ H) as [Hp _]. rewrite <- Hp.
      exact Hnd. }
    specialize (IHsame_entries1 Hnd key).
    specialize (IHsame_entries2 Hnd2 key).
    destruct (lookup_entry key es1), (lookup_entry key es2),
      (lookup_entry key es3); try contradiction; try exact I.
    eapply same_tree_trans; eassumption.
Qed.

Lemma Permutation_le1 {A} (l l' : list A) :
  l ≡ₚ l' -> length l <= 1 -> l = l'.
Proof.
  intros Hp Hl. destruct l as [|x [|y l]]; simpl in Hl; [| |lia].
  - symmetry. apply Permutation_nil, Hp.
  - apply Permutation_singleton_l, Hp.
Qed.

Lemma Permutation_nonempty {A} (l l' : list A) :
  l ≡ₚ l' -> (exists x, l !! 0 = Some x) <-> (exists x, l' !! 0 = Some x).
Proof.
  intros Hp. apply Permutation_length in Hp.
  destruct l, l'; simpl in *; try discriminate; split; intros [x [=]]; eauto.
Qed.

Section UpToOrder.

Context {G : Type}.
Variable current_dir : string.

Local Abbreviation discover := (model_loader.discover (G:=G) current_dir).
Local Abbreviation list_available_models :=
  (model_loader.list_available_models (G:=G) current_dir).

(** The [student_models] directory seen by two enumerations of one tree. *)
Lemma student_models_same (w1 w2 : world G) :
  enumeration.same_entries (fs w1) (fs w2) ->
  NoDup (names (fs w1)) ->
  (lookup_entry "student_models" (fs w1) = None
   /\ lookup_entry "student_models" (fs w2) = None)
  \/ (lookup_entry "student_models" (fs w1) = Some File
      /\ lookup_entry "student_models" (fs w2) = Some File)
  \/ (lookup_entry "student_models" (fs w1) = Some Locked
      /\ lookup_entry "student_models" (fs w2) = Some Locked)
  \/ exists es1 es2,
       lookup_entry "student_models" (fs w1) = Some (Dir es1)
       /\ lookup_entry "student_models" (fs w2) = Some (Dir es2)
       /\ model_loader.scan (names es1) ≡ₚ model_loader.scan (names es2).
Proof.
  intros Hsame Hnd.
  pose proof (lookup_same _ _ Hsame Hnd "student_models") as H.
  destruct (lookup_entry "student_models" (fs w1)) as [n1|],
    (lookup_entry "student_models" (fs w2)) as [n2|]; try contradiction.
  - destruct H as [| |es1 es2 Hes].
    + right. left. auto.
    + right. right. left. auto.
    + right. right. right. exists es1, es2. repeat split.
      apply filter_Permutation, (same_entries_names _ _ Hes).
  - left. auto.
Qed.

(** C2, as amended: two runs over an unchanged directory tree see the same
    candidates of each kind, whatever the order in which the entries of its
    directories are reported to each run, so each kind is found in both runs
    or in neither; the runs select the same implementation file, the same
    model file and the same data file when the entries are reported in the
    same order, or when there is at most one candidate of the kind. *)
Theorem discovery_up_to_enumeration_order (w1 w2 : world G) (dir : string) :
  enumeration.same_entries (fs w1) (fs w2) ->
  NoDup (names (fs w1)) ->
  my_model.model_files dir (fs w1) ≡ₚ my_model.model_files dir (fs w2)
  /\ my_model.csv_files dir (fs w1) ≡ₚ my_model.csv_files dir (fs w2)
  /\ (forall models1,
        list_available_models w1 = Return models1 ->
        exists models2,
          list_available_models w2 = Return models2 /\ models1 ≡ₚ models2)
  /\ ((exists f, fst (discover w1) = Return (Some f))
      <-> (exists f, fst (discover w2) = Return (Some f)))
  /\ ((exists p, my_model.model_path dir (fs w1) = Return p)
      <-> (exists p, my_model.model_path dir (fs w2) = Return p))
  /\ ((exists p, my_model.data_path dir (fs w1) = Return p)
      <-> (exists p, my_model.data_path dir (fs w2) = Return p))
  /\ (fs w1 = fs w2 ->
      fst (discover w1) = fst (discover w2)
      /\ my_model.model_path dir (fs w1) = my_model.model_path dir (fs w2)
      /\ my_model.data_path dir (fs w1) = my_model.data_path dir (fs w2))
  /\ (length (my_model.model_files dir (fs w1)) <= 1 ->
      my_model.model_path dir (fs w1) = my_model.model_path dir (fs w2))
  /\ (length (my_model.csv_files dir (fs w1)) <= 1 ->
      my_model.data_path dir (fs w1) = my_model.data_path dir (fs w2))
  /\ (forall models1,
        list_available_models w1 = Return models1 ->
        length models1 <= 1 ->
        fst (discover w1) = fst (discover w2)).
Proof.
  intros Hsame Hnd.
  pose proof (same_entries_search _ _ Hsame ".h5" dir) as Hm.
  pose proof (same_entries_search _ _ Hsame ".csv" dir) as Hc.
  fold (my_model.model_files dir (fs w1)) in Hm.
  fold (my_model.model_files dir (fs w2)) in Hm.
  fold (my_model.csv_files dir (fs w1)) in Hc.
  fold (my_model.csv_files dir (fs w2)) in Hc.
  pose proof (student_models_same w1 w2 Hsame Hnd) as Hsm.
  split; [exact Hm|]. split; [exact Hc|].
  split; [|split; [|split; [|split; [|split; [|split; [|split]]]]]].
  - intros l1 Hl1.
    destruct Hsm as [[H1 H2]|[[H1 H2]|[[H1 H2]|(es1 & es2 & H1 & H2 & Hp)]]].
    + exists []. unfold model_loader.list_available_models,
        model_loader.path_exists in *.
      rewrite H1 in Hl1. rewrite H2. injection Hl1 as <-. auto.
    + unfold model_loader.list_available_models, model_loader.path_exists,
        model_loader.listdir in Hl1.
      rewrite H1 in Hl1. discriminate.
    + unfold model_loader.list_available_models, model_loader.path_exists,
        model_loader.listdir in Hl1.
      rewrite H1 in Hl1. discriminate.
    + rewrite (list_available_models_directory _ _ _ H1) in Hl1.
      injection Hl1 as <-.
      exists (model_loader.scan (names es2)).
      split; [exact (list_available_models_directory _ _ _ H2) | exact Hp].
  - destruct Hsm as [[H1 H2]|[[H1 H2]|[[H1 H2]|(es1 & es2 & H1 & H2 & Hp)]]].
    + rewrite (discover_missing _ _ H1), (discover_missing _ _ H2).
      split; intros [f [=]].
    + destruct (discover_not_listable current_dir w1 File H1) as (e1 & _ & ->);
        [discriminate|].
      destruct (discover_not_listable current_dir w2 File H2) as (e2 & _ & ->);
        [discriminate|].
      split; intros [f [=]].
    + destruct (discover_not_listable current_dir w1 Locked H1)
        as (e1 & _ & ->); [discriminate|].
      destruct (discover_not_listable current_dir w2 Locked H2)
        as (e2 & _ & ->); [discriminate|].
      split; intros [f [=]].
    + rewrite (discover_directory _ _ _ H1), (discover_directory _ _ _ H2).
      apply Permutation_length in Hp.
      destruct (model_loader.scan (names es1)) as [|f1 l1],
        (model_loader.scan (names es2)) as [|f2 l2]; simpl in *;
        try discriminate; split; intros [f [=]]; eauto.
  - unfold my_model.model_path.
    apply Permutation_length in Hm.
    destruct (my_model.model_files dir (fs w1)),
      (my_model.model_files dir (fs w2)); simpl in *; try discriminate;
      split; intros [p [=]]; eauto.
  - unfold my_model.data_path.
    apply Permutation_length in Hc.
    destruct (my_model.csv_files dir (fs w1)),
      (my_model.csv_files dir (fs w2)); simpl in *; try discriminate;
      split; intros [p [=]]; eauto.
  - intros Hfs. unfold model_loader.discover, model_loader.path_exists,
      model_loader.listdir.
    rewrite Hfs. repeat split.
    destruct (lookup_entry "student_models" (fs w2)) as [[|es|]|]; simpl;
      try reflexivity.
    destruct (model_loader.scan (names es)); reflexivity.
  - intros Hle. unfold my_model.model_path.
    rewrite (Permutation_le1 _ _ Hm Hle). reflexivity.
  - intros Hle. unfold my_model.data_path.
    rewrite (Permutation_le1 _ _ Hc Hle). reflexivity.
  - intros l1 Hl1 Hle.
    destruct Hsm as [[H1 H2]|[[H1 H2]|[[H1 H2]|(es1 & es2 & H1 & H2 & Hp)]]].
    + rewrite (discover_missing _ _ H1), (discover_missing _ _ H2).
      reflexivity.
    + unfold model_loader.discover, model_loader.path_exists,
        model_loader.listdir. rewrite H1, H2. reflexivity.
    + unfold model_loader.discover, model_loader.path_exists,
        model_loader.listdir. rewrite H1, H2. reflexivity.
    + rewrite (list_available_models_directory _ _ _ H1) in Hl1.
      injection Hl1 as <-.
      rewrite (discover_directory _ _ _ H1), (discover_directory _ _ _ H2).
      rewrite <- (Permutation_le1 _ _ Hp Hle).
      destruct (model_loader.scan (names es1)); reflexivity.
Qed.

End UpToOrder.

(** ** The two properties at sample trees *)

Lemma Permutation_same_entries (es1 es2 : entries) :
  es1 ≡ₚ es2 -> enumeration.same_entries es1 es2.
Proof.
  induction 1 as [|[name n] l l' _ IH|x y l|l l' l'' _ IH1 _ IH2].
  - constructor.
  - constructor; [apply same_tree_refl | exact IH].
  - constructor.
  - eapply enumeration.same_trans; eassumption.
Qed.

Lemma forward_backward_same :
  enumeration.same_entries Orders.es_forward Orders.es_backward.
Proof.
  eapply enumeration.same_trans.
  - apply (enumeration.same_cons "student_models" Orders.two_models
             Orders.two_models_reversed).
    + constructor. constructor.
    + apply same_entries_refl.
  - apply Permutation_same_entries.
    exact (Permutation_rev
             [("student_models", Orders.two_models_reversed);
              ("a.h5", File); ("b.h5", File); ("x.csv", File);
              ("y.csv", File)]).
Qed.

Lemma single_reordered_same :
  enumeration.same_entries Orders.es_single Orders.es_single_reordered.
Proof.
  eapply enumeration.same_trans.
  - apply (enumeration.same_cons "student_models"
             (Dir [("helpers.py", File); ("my_model.py", File)])
             (Dir [("my_model.py", File); ("helpers.py", File)])).
    + constructor. constructor.
    + apply same_entries_refl.
  - apply Permutation_same_entries.
    exact (Permutation_rev
             [("student_models",
               Dir [("my_model.py", File); ("helpers.py", File)]);
              ("notes", Dir [("readme.txt", File)]); ("mine.h5", File);
              ("data.csv", File)]).
Qed.

(** The claim as stated fails: the same tree, reported in another order,
    gives another implementation file, another model file and another data
    file. *)
Lemma enumeration_order_changes_selection :
  enumeration.same_entries (fs Orders.w_forward) (fs Orders.w_backward)
  /\ fst (model_loader.discover Samples.root Orders.w_forward)
     = Return (Some "a.py")
  /\ fst (model_loader.discover Samples.root Orders.w_backward)
     = Return (Some "b.py")
  /\ my_model.model_path Samples.root (fs Orders.w_forward)
     = Return "/repo/miner_model/a.h5"
  /\ my_model.model_path Samples.root (fs Orders.w_backward)
     = Return "/repo/miner_model/b.h5"
  /\ my_model.data_path Samples.root (fs Orders.w_forward)
     = Return "/repo/miner_model/x.csv"
  /\ my_model.data_path Samples.root (fs Orders.w_backward)
     = Return "/repo/miner_model/y.csv".
Proof.
  split; [exact forward_backward_same|]. repeat split; reflexivity.
Qed.

Lemma up_to_order_witness :
  enumeration.same_entries (fs Orders.w_single) (fs Orders.w_single_reordered)
  /\ NoDup (names (fs Orders.w_single))
  /\ my_model.model_path Samples.root (fs Orders.w_single)
     = my_model.model_path Samples.root (fs Orders.w_single_reordered)
  /\ fst (model_loader.discover Samples.root Orders.w_single)
     = fst (model_loader.discover Samples.root Orders.w_single_reordered).
Proof.
  assert (Hnd : NoDup (names (fs Orders.w_single))).
  { repeat (apply NoDup_cons; split;
            [rewrite list_elem_of_In; simpl; intuition discriminate|]).
    apply NoDup_nil. exact I. }
  destruct (discovery_up_to_enumeration_order Samples.root Orders.w_single
              Orders.w_single_reordered Samples.root single_reordered_same Hnd)
    as (_ & _ & _ & _ & _ & _ & _ & Hm & _ & Hd).
  split; [exact single_reordered_same|]. split; [exact Hnd|].
  split.
  - apply Hm. simpl. lia.
  - apply (Hd ["my_model.py"]); [reflexivity | simpl; lia].
Defined.

Lemma first_in_enumeration_witness :
  fst (model_loader.discover Samples.root Samples.w_default)
  = Return (Some "my_model.py")
  /\ my_model.model_path Samples.root Orders.es_nested_first
     = Return "/repo/miner_model/b.h5".
Proof.
  split.
  - destruct (selection_is_first_in_enumeration Samples.root Samples.w_default
                Samples.root) as (Himpl & _).
    destruct (Himpl [("__init__.py", File); ("helpers.py", File);
                     ("my_model.py", File); ("other.py", File)] eq_refl)
      as [Hsel _].
    apply Hsel. exists ["__init__.py"; "helpers.py"], ["other.py"].
    split; [reflexivity|]. split.
    + repeat constructor; intros (_ & H1 & H2); congruence.
    + repeat split; discriminate.
  - destruct (selection_is_first_in_enumeration Samples.root
                (mk_world Orders.es_nested_first [] tt []) Samples.root)
      as (_ & Hm & _).
    apply Hm. exists "/repo/miner_model", "b.h5". split; [|reflexivity].
    exists [("/repo/miner_model", "notes.txt")],
      [("/repo/miner_model", "c.h5"); ("/repo/miner_model", "y.csv");
       ("/repo/miner_model/sub", "a.h5"); ("/repo/miner_model/sub", "z.csv")].
    split; [reflexivity|]. split.
    + repeat constructor. intros [_ H]. discriminate.
    + split; reflexivity.
Defined.
